(** * Analytic MEG forward solution in sphere models (duneuro-analytic-solution)

    A shallow embedding of
    - the header [duneuro-analytic-solution.hh]: the class template
      [duneuro::AnalyticSolutionMEG<FieldType>], and
    - the Python binding [src/duneuro-analytic-solution.cc]: the
      registration of [Coordinate], [Dipole] and [AnalyticSolutionMEG].

    The class is a template over [FieldType]; the embedding is generic in the
    same way (a type class of scalar operations, with no law assumed) and is
    instantiated twice: at the real numbers (exact arithmetic, in which the
    formulas of Sarvas 1987 are stated) and at IEEE 754 binary64 (the
    [double] of the binding, through the executable specification
    [SpecFloat]: round to nearest even, one rounding per operation).

    [Dune::FieldVector] and [duneuro::Dipole] come from libraries outside the
    repository; the operations the code calls on them are written out after
    dune-common ([densevector.hh], [fvector.hh]) with their loops and their
    accumulation order. The functions of the binding are modelled from the
    point where pybind11 has converted the arguments of a call.

    Overloads get a suffix: [totalField] is the vector overload,
    [totalField_dir] the one with a direction. *)

From Stdlib Require Import ZArith List String Bool Lia DecimalString.
From Stdlib Require Import Reals Lra.
From Stdlib Require Import Floats.SpecFloat.
Import ListNotations.

Set Implicit Arguments.

(* ================================================================== *)
(** * The scalar type: the template parameter [FieldType]              *)
(* ================================================================== *)

(** What the class template needs of [FieldType]: conversion of the integer
  literals ([0] of the accumulators, [2] in [grad_F]), the four arithmetic
  operators and [std::sqrt]. No law is assumed of them. *)
Class FieldType (K : Type) : Type := {
  fromInt : Z -> K;
  fadd : K -> K -> K;
  fsub : K -> K -> K;
  fmul : K -> K -> K;
  fdiv : K -> K -> K;
  fsqrt : K -> K
}.

Declare Scope field_scope.
Delimit Scope field_scope with K.
Infix "+" := fadd : field_scope.
Infix "-" := fsub : field_scope.
Infix "*" := fmul : field_scope.
Infix "/" := fdiv : field_scope.

(* ================================================================== *)
(** * [Dune::FieldVector<K, 3>]                                        *)
(* ================================================================== *)

(** A [FieldVector<K,3>] is a [std::array<K,3>]: three components. *)
Record FieldVector (K : Type) : Type := mkFV { fv0 : K; fv1 : K; fv2 : K }.

Arguments mkFV {K} _ _ _.
Arguments fv0 {K} _.
Arguments fv1 {K} _.
Arguments fv2 {K} _.

Section FieldVectorOps.
Context {K : Type} `{FieldType K}.

Local Open Scope field_scope.

(** Number of components, [size()]. *)
Definition dim : nat := 3.

(** [v[i]] for an index below [dim]; the evaluator only ever subscripts
    with [i], [(i+1) % 3] and [(i+2) % 3]. (The last branch is not
    reached for such indices; the binding's subscript with an arbitrary
    index is [subscript] in the binding section.) *)
Definition fv_at (v : FieldVector K) (i : nat) : K :=
  match i with
  | 0%nat => fv0 v
  | 1%nat => fv1 v
  | _ => fv2 v
  end.

(** [v[i] = x] for an index below [dim]. *)
Definition fv_store (v : FieldVector K) (i : nat) (x : K) : FieldVector K :=
  match i with
  | 0%nat => mkFV x (fv1 v) (fv2 v)
  | 1%nat => mkFV (fv0 v) x (fv2 v)
  | 2%nat => mkFV (fv0 v) (fv1 v) x
  | _ => v
  end.

(** The default constructor value-initialises the array ([_data{{}}]). *)
Definition fv_default : FieldVector K :=
  mkFV (fromInt 0) (fromInt 0) (fromInt 0).

(** [FieldVector(const K& t)]: [std::fill] of all components with [t]. *)
Definition fv_fill (t : K) : FieldVector K :=
  fold_left (fun v i => fv_store v i t) (seq 0 dim) fv_default.

(** The loop [for (i = 0; i < size(); ++i) result[i] = f(i)] that the
  friend operators of [FieldVector] run on a fresh vector. *)
Definition fv_tabulate (f : nat -> K) : FieldVector K :=
  fold_left (fun v i => fv_store v i (f i)) (seq 0 dim) fv_default.

(** [u + v] and [u - v] ([DenseVector::operator+=] and [operator-=] on a
    copy): componentwise. *)
Definition vadd (u v : FieldVector K) : FieldVector K :=
  fv_tabulate (fun i => fv_at u i + fv_at v i).

Definition vsub (u v : FieldVector K) : FieldVector K :=
  fv_tabulate (fun i => fv_at u i - fv_at v i).

(** [scalar * vector]: [result[i] = scalar * vector[i]]. *)
Definition smul (k : K) (v : FieldVector K) : FieldVector K :=
  fv_tabulate (fun i => k * fv_at v i).

(** [vector / scalar] and [vector /= scalar]: [vector[i] / scalar]. *)
Definition vdiv (v : FieldVector K) (k : K) : FieldVector K :=
  fv_tabulate (fun i => fv_at v i / k).

(** [u * v], the scalar product of [DenseVector]:
    [result(0); for i: result += u[i] * v[i]]. *)
Definition dot (u v : FieldVector K) : K :=
  fold_left (fun result i => result + fv_at u i * fv_at v i)
            (seq 0 dim) (fromInt 0).

(** [two_norm()]: [result(0); for i: result += abs2(v[i]); sqrt(result)],
    where [abs2] of a real scalar is its square. *)
Definition two_norm (v : FieldVector K) : K :=
  fsqrt (fold_left (fun result i => result + fv_at v i * fv_at v i)
                   (seq 0 dim) (fromInt 0)).

End FieldVectorOps.

(* ================================================================== *)
(** * [duneuro::Dipole<T, 3>]                                          *)
(* ================================================================== *)

(** A dipole: a position and a moment, fixed at construction, read through
  the accessors [position()] and [moment()]. *)
Record Dipole (K : Type) : Type := mkDipole {
  position : FieldVector K;
  moment : FieldVector K
}.

Arguments mkDipole {K} _ _.
Arguments position {K} _.
Arguments moment {K} _.

(* ================================================================== *)
(** * [duneuro::AnalyticSolutionMEG<FieldType>]                        *)
(* ================================================================== *)

(** The object state: the two members set by the constructor and the two
  set by [bind]. *)
Record AnalyticSolutionMEG (K : Type) : Type := mkMEG {
  sphereCenter_ : FieldVector K;
  scalingFactor_ : K;
  moment_ : FieldVector K;
  R_0 : FieldVector K
}.

Arguments mkMEG {K} _ _ _ _.
Arguments sphereCenter_ {K} _.
Arguments scalingFactor_ {K} _.
Arguments moment_ {K} _.
Arguments R_0 {K} _.

Section Evaluator.
Context {K : Type} `{FieldType K}.

Local Open Scope field_scope.

Local Abbreviation Coordinate := (FieldVector K).

(** The constructor initialises [sphereCenter_] and [scalingFactor_] only.
    [moment_] and [R_0] hold whatever the default constructor of
    [FieldVector] left in them; that content is the argument [unbound]. *)
Definition construct (unbound : Coordinate * Coordinate)
           (sphereCenter : Coordinate) (scalingFactor : K)
  : AnalyticSolutionMEG K :=
  mkMEG sphereCenter scalingFactor (fst unbound) (snd unbound).

(** The default argument [scalingFactor = 1.0]. *)
Definition default_scalingFactor : K := fromInt 1.

(** [bind]: two assignments, to [R_0] and to [moment_]. *)
Definition bind (self : AnalyticSolutionMEG K) (dipole : Dipole K)
  : AnalyticSolutionMEG K :=
  let R_0' := vsub (position dipole) (sphereCenter_ self) in
  let moment' := moment dipole in
  mkMEG (sphereCenter_ self) (scalingFactor_ self) moment' R_0'.

(** [crossProduct]: the loop over [i = 0, 1, 2] with [j = (i + 1) % 3]
    and [k = (i + 2) % 3]. *)
Definition crossProduct (vec_1 vec_2 : Coordinate) : Coordinate :=
  fold_left
    (fun crossProd i =>
       let j := ((i + 1) mod 3)%nat in
       let k := ((i + 2) mod 3)%nat in
       fv_store crossProd i
                (fv_at vec_1 j * fv_at vec_2 k - fv_at vec_1 k * fv_at vec_2 j))
    (seq 0 3) fv_default.

(** The local [F] of [totalField]. *)
Definition totalField_F (self : AnalyticSolutionMEG K) (coilPos : Coordinate) : K :=
  let R := vsub coilPos (sphereCenter_ self) in
  let A := vsub R (R_0 self) in
  let r := two_norm R in
  let a := two_norm A in
  a * (r * a + r * r - dot (R_0 self) R).

(** The local [grad_F] of [totalField]. *)
Definition totalField_grad_F (self : AnalyticSolutionMEG K) (coilPos : Coordinate)
  : Coordinate :=
  let R := vsub coilPos (sphereCenter_ self) in
  let A := vsub R (R_0 self) in
  let r := two_norm R in
  let a := two_norm A in
  vsub (smul (a * a / r + dot A R / a + fromInt 2 * (a + r)) R)
       (smul (a + fromInt 2 * r + dot A R / a) (R_0 self)).

(** [totalField(coilPos)]. The return expression parses as
    [(scalingFactor_ * (F * X - (X * R) * grad_F)) / (F * F)]. *)
Definition totalField (self : AnalyticSolutionMEG K) (coilPos : Coordinate)
  : Coordinate :=
  let R := vsub coilPos (sphereCenter_ self) in
  let F := totalField_F self coilPos in
  let grad_F := totalField_grad_F self coilPos in
  vdiv (smul (scalingFactor_ self)
             (vsub (smul F (crossProduct (moment_ self) (R_0 self)))
                   (smul (dot (crossProduct (moment_ self) (R_0 self)) R) grad_F)))
       (F * F).

(** [totalField(coilPos, direction)]. *)
Definition totalField_dir (self : AnalyticSolutionMEG K)
           (coilPos direction : Coordinate) : K :=
  dot (totalField self coilPos) direction.

(** [primaryField(coilPos)]. *)
Definition primaryField (self : AnalyticSolutionMEG K) (coilPos : Coordinate)
  : Coordinate :=
  let R := vsub coilPos (sphereCenter_ self) in
  let diff := vsub R (R_0 self) in
  let diffNorm := two_norm diff in
  let diff := vdiv diff (diffNorm * diffNorm * diffNorm) in
  smul (scalingFactor_ self) (crossProduct (moment_ self) diff).

(** [primaryField(coilPos, direction)]. *)
Definition primaryField_dir (self : AnalyticSolutionMEG K)
           (coilPos direction : Coordinate) : K :=
  dot (primaryField self coilPos) direction.

(** [secondaryField(coilPos)]. *)
Definition secondaryField (self : AnalyticSolutionMEG K) (coilPos : Coordinate)
  : Coordinate :=
  vsub (primaryField self coilPos) (totalField self coilPos).

(** [secondaryField(coilPos, direction)]. *)
Definition secondaryField_dir (self : AnalyticSolutionMEG K)
           (coilPos direction : Coordinate) : K :=
  primaryField_dir self coilPos direction - totalField_dir self coilPos direction.

End Evaluator.

(* ================================================================== *)
(** * The formulas of the specification                                *)
(* ================================================================== *)

(** The closed forms as the specification states them, component by
    component, over the same scalar operations. They are the
    reference the evaluator is compared with. *)
Section Formulas.
Context {K : Type} `{FieldType K}.

Local Open Scope field_scope.

(** Sums over the three components, accumulated from [0]. *)
Definition sum3 (x y z : K) : K := fromInt 0 + x + y + z.

(** Difference of two points. *)
Definition diff3 (u v : FieldVector K) : FieldVector K :=
  mkFV (fv0 u - fv0 v) (fv1 u - fv1 v) (fv2 u - fv2 v).

(** Scalar product and Euclidean length. *)
Definition inner3 (u v : FieldVector K) : K :=
  sum3 (fv0 u * fv0 v) (fv1 u * fv1 v) (fv2 u * fv2 v).

Definition length3 (u : FieldVector K) : K := fsqrt (inner3 u u).

(** The right-handed cross product,
    [(u x v)_i = u_{i+1} v_{i+2} - u_{i+2} v_{i+1}] with cyclic indices. *)
Definition cross3 (u v : FieldVector K) : FieldVector K :=
  mkFV (fv1 u * fv2 v - fv2 u * fv1 v)
       (fv2 u * fv0 v - fv0 u * fv2 v)
       (fv0 u * fv1 v - fv1 u * fv0 v).

(** [F = a (r a + r^2 - R_0 . R)]. *)
Definition Sarvas_F (R0 R : FieldVector K) : K :=
  let A := diff3 R R0 in
  let r := length3 R in
  let a := length3 A in
  a * (r * a + r * r - inner3 R0 R).

(** [grad_F = (a^2/r + (A.R)/a + 2(a + r)) R - (a + 2r + (A.R)/a) R_0]. *)
Definition Sarvas_grad_F (R0 R : FieldVector K) : FieldVector K :=
  let A := diff3 R R0 in
  let r := length3 R in
  let a := length3 A in
  let cR := a * a / r + inner3 A R / a + fromInt 2 * (a + r) in
  let cR0 := a + fromInt 2 * r + inner3 A R / a in
  mkFV (cR * fv0 R - cR0 * fv0 R0)
       (cR * fv1 R - cR0 * fv1 R0)
       (cR * fv2 R - cR0 * fv2 R0).

(** [s [F (Q x R_0) - ((Q x R_0) . R) grad_F] / F^2], for sphere centre
    [C], scaling factor [s], moment [Q], dipole position [pos] and
    evaluation point [coilPos]. *)
Definition Sarvas_totalField (C : FieldVector K) (s : K)
           (Q pos coilPos : FieldVector K) : FieldVector K :=
  let R0 := diff3 pos C in
  let R := diff3 coilPos C in
  let F := Sarvas_F R0 R in
  let G := Sarvas_grad_F R0 R in
  let X := cross3 Q R0 in
  let XR := inner3 X R in
  mkFV (s * (F * fv0 X - XR * fv0 G) / (F * F))
       (s * (F * fv1 X - XR * fv1 G) / (F * F))
       (s * (F * fv2 X - XR * fv2 G) / (F * F)).

(** The denominator of the primary field, [|R - R_0|^3]. *)
Definition primary_denominator (C pos coilPos : FieldVector K) : K :=
  let a := length3 (diff3 (diff3 coilPos C) (diff3 pos C)) in
  a * a * a.

(** [s (Q x (R - R_0)) / |R - R_0|^3]. *)
Definition infinite_medium_field (C : FieldVector K) (s : K)
           (Q pos coilPos : FieldVector K) : FieldVector K :=
  let A := diff3 (diff3 coilPos C) (diff3 pos C) in
  let X := cross3 Q A in
  let d := primary_denominator C pos coilPos in
  mkFV (s * fv0 X / d) (s * fv1 X / d) (s * fv2 X / d).

End Formulas.

(* ================================================================== *)
(** * Two instances of [FieldType]                                     *)
(* ================================================================== *)

(** Exact arithmetic: the real numbers. *)
#[export] Instance R_FieldType : FieldType R := {|
  fromInt := IZR;
  fadd := Rplus;
  fsub := Rminus;
  fmul := Rmult;
  fdiv := Rdiv;
  fsqrt := sqrt
|}.

(** [double]: IEEE 754 binary64, round to nearest even, as the executable
    specification [SpecFloat] defines it (53 bits of precision, exponent of
    the infinities 1024). Every operation rounds on its own (no product is
    fused with a sum), and there is one NaN: its sign and payload are not
    represented. *)
Definition double : Type := spec_float.

Definition prec : Z := 53.
Definition emax : Z := 1024.

#[export] Instance double_FieldType : FieldType double := {|
  fromInt := fun z => binary_normalize prec emax z 0 false;
  fadd := SFadd prec emax;
  fsub := SFsub prec emax;
  fmul := SFmul prec emax;
  fdiv := SFdiv prec emax;
  fsqrt := SFsqrt prec emax
|}.

(** Classification of a [double]. *)
Definition is_zero (x : double) : bool :=
  match x with S754_zero _ => true | _ => false end.

Definition is_nan (x : double) : bool :=
  match x with S754_nan => true | _ => false end.

Definition is_infinite (x : double) : bool :=
  match x with S754_infinity _ => true | _ => false end.

(** [!std::isfinite(x)]: an infinity or a NaN. *)
Definition non_finite (x : double) : bool := is_nan x || is_infinite x.

(** All three components are non-finite. *)
Definition all_non_finite (v : FieldVector double) : bool :=
  non_finite (fv0 v) && non_finite (fv1 v) && non_finite (fv2 v).

(** The vector whose three components are NaN. *)
Definition nan3 : FieldVector double := mkFV S754_nan S754_nan S754_nan.

(* ================================================================== *)
(** * The Python binding, [src/duneuro-analytic-solution.cc]           *)
(* ================================================================== *)

(** [using Scalar = double; using CoordinateType = FieldVector<Scalar, dim>]. *)
Definition Scalar : Type := double.
Definition CoordinateType : Type := FieldVector Scalar.

(** [sizeof(Scalar)] and [py::format_descriptor<Scalar>::format()]. *)
Definition sizeof_Scalar : Z := 8.
Definition format_Scalar : string := "d".

(** What a function of the binding can throw. [index_error] stands for the
    two exceptions pybind11 turns into Python's [IndexError]
    ([py::index_error] and [std::out_of_range]). *)
Inductive exception : Type :=
| Dune_Exception (what : string)
| Dune_RangeError
| cast_error
| index_error.

(** Outcome of a call: a value, an exception, or no defined behaviour
    (an access outside an array that nothing checks). *)
Inductive result (A : Type) : Type :=
| Ok (a : A)
| Throw (e : exception)
| Undefined.

Arguments Ok {A} _.
Arguments Throw {A} _.
Arguments Undefined {A}.

Definition result_bind {A B : Type} (c : result A) (k : A -> result B) : result B :=
  match c with
  | Ok a => k a
  | Throw e => Throw e
  | Undefined => Undefined
  end.

Notation "x <- c ;; k" := (result_bind c (fun x => k))
  (at level 61, c at next level, right associativity).

Definition is_error {A : Type} (r : result A) : bool :=
  match r with Ok _ => false | _ => true end.

Definition is_IndexError {A : Type} (r : result A) : bool :=
  match r with Throw index_error => true | _ => false end.

(** [py::buffer_info], the fields the binding fills in [def_buffer] and
    reads in the constructors. [ptr o] is the [Scalar] stored [o] bytes
    after the buffer's pointer, so that [static_cast<Scalar*>(ptr)[j]] is
    [ptr (j * sizeof(Scalar))], while item [i] of a one-dimensional buffer
    is [ptr (i * strides[0])]. *)
Record buffer_info : Type := mkBuffer {
  ptr : Z -> Scalar;
  itemsize : Z;
  format : string;
  ndim : Z;
  shape : list Z;
  strides : list Z
}.

(** [data_ptr[j]]. *)
Definition data_at (info : buffer_info) (j : Z) : Scalar :=
  ptr info (j * sizeof_Scalar)%Z.

(** [info.shape[0]]; read only after [ndim] was found to be [1]. *)
Definition shape0 (info : buffer_info) : Z := hd 0%Z (shape info).

(** The items of a one-dimensional buffer, as Python sees them. *)
Definition buffer_items (info : buffer_info) : list Scalar :=
  map (fun i => ptr info (Z.of_nat i * hd 0%Z (strides info))%Z)
      (seq 0 (Z.to_nat (shape0 info))).

(** An element of a [py::list]: a Python object that converts to a C++
    [double] (represented by that [double]) or one that does not. *)
Inductive handle : Type :=
| h_float (x : Scalar)
| h_other.

(** [handle.cast<Scalar>()]. *)
Definition cast_Scalar (h : handle) : result Scalar :=
  match h with
  | h_float x => Ok x
  | h_other => Throw cast_error
  end.

(** Streaming an integer into the message of [DUNE_THROW]. *)
Definition show_Z (z : Z) : string := NilZero.string_of_int (Z.to_int z).
Definition show_size (n : nat) : string := show_Z (Z.of_nat n).

Section Binding.

(** Whether dune-common is built with [DUNE_CHECK_BOUNDS], which turns
    [DUNE_ASSERT_BOUNDS] in [FieldVector::operator[]] into a throw of
    [Dune::RangeError]; without it the subscript checks nothing. *)
Variable DUNE_CHECK_BOUNDS : bool.

(** [operator<<] of a stream for a [double]. *)
Variable show_Scalar : Scalar -> string.

Local Open Scope string_scope.

(** ** [register_coordinate_vector] *)

(** [FieldVector::operator[]] with an index of any size. *)
Definition subscript (v : CoordinateType) (index : nat) : result Scalar :=
  if (index <? dim)%nat then Ok (fv_at v index)
  else if DUNE_CHECK_BOUNDS then Throw Dune_RangeError
  else Undefined.

(** [v[index] = value] through the same subscript. *)
Definition subscript_assign (v : CoordinateType) (index : nat) (value : Scalar)
  : result CoordinateType :=
  if (index <? dim)%nat then Ok (fv_store v index value)
  else if DUNE_CHECK_BOUNDS then Throw Dune_RangeError
  else Undefined.

(** [def_buffer]: the buffer a [Coordinate] exports. *)
Definition Coordinate_buffer (vector : CoordinateType) : buffer_info :=
  mkBuffer (fun o => fv_at vector (Z.to_nat (o / sizeof_Scalar)))
           sizeof_Scalar format_Scalar 1 [Z.of_nat dim] [sizeof_Scalar].

(** [py::init<Scalar>()], "create Coordinate from scalar". *)
Definition Coordinate_init_scalar (s : Scalar) : result CoordinateType :=
  Ok (fv_fill s).

(** [py::init] from a [py::buffer], "create Coordinate from Python buffer". *)
Definition Coordinate_init_buffer (buffer : buffer_info) : result CoordinateType :=
  let info := buffer in
  if negb (String.eqb (format info) format_Scalar) then
    Throw (Dune_Exception "buffer entries are of the wrong type")
  else if negb (ndim info =? 1)%Z then
    Throw (Dune_Exception
             ("buffer has to consist of 1 dimension, but consists of "
                ++ show_Z (ndim info) ++ " dimensions"))
  else if negb (shape0 info =? Z.of_nat dim)%Z then
    Throw (Dune_Exception
             ("buffer has to contain 3 entries, but contains "
                ++ show_Z (shape0 info) ++ " entries"))
  else
    Ok (mkFV (data_at info 0) (data_at info 1) (data_at info 2)).

(** [std::transform] of the handles of a list into the components of a
    vector, from index [i] on; the first failing cast throws. *)
Fixpoint transform_cast (handles : list handle) (out : CoordinateType) (i : nat)
  : result CoordinateType :=
  match handles with
  | [] => Ok out
  | h :: rest =>
      x <- cast_Scalar h ;;
      transform_cast rest (fv_store out i x) (S i)
  end.

(** [py::init] from a [py::list], "create coordinate vector from list". *)
Definition Coordinate_init_list (value_list : list handle) : result CoordinateType :=
  if negb (List.length value_list =? dim)%nat then
    Throw (Dune_Exception
             ("list has to contain 3 entries, but contains"
                ++ show_size (List.length value_list) ++ " entries"))
  else
    transform_cast value_list fv_default 0.

(** [__len__]. *)
Definition Coordinate_len (coordinate : CoordinateType) : result nat := Ok dim.

(** [__getitem__]: [return coordinate[index];]. *)
Definition Coordinate_getitem (coordinate : CoordinateType) (index : nat)
  : result Scalar :=
  subscript coordinate index.

(** [__setitem__]: [coordinate[index] = value;]. The result is the new
    content of the coordinate. *)
Definition Coordinate_setitem (coordinate : CoordinateType) (index : nat)
           (value : Scalar) : result CoordinateType :=
  subscript_assign coordinate index value.

(** [__str__]. *)
Definition Coordinate_str (coordinate : CoordinateType) : result string :=
  Ok (" Coordinate with entries [" ++ show_Scalar (fv_at coordinate 0)
        ++ ", " ++ show_Scalar (fv_at coordinate 1)
        ++ ", " ++ show_Scalar (fv_at coordinate 2) ++ "]").

(** The in-place operators [+=], [-=] with a vector and [+=], [-=], [*=],
    [/=] with a scalar; each returns the new content of the receiver. *)
Definition Coordinate_iadd (self other : CoordinateType) : result CoordinateType :=
  Ok (vadd self other).

Definition Coordinate_isub (self other : CoordinateType) : result CoordinateType :=
  Ok (vsub self other).

Definition Coordinate_iadd_scalar (self : CoordinateType) (k : Scalar)
  : result CoordinateType :=
  Ok (fv_tabulate (fun i => fadd (fv_at self i) k)).

Definition Coordinate_isub_scalar (self : CoordinateType) (k : Scalar)
  : result CoordinateType :=
  Ok (fv_tabulate (fun i => fsub (fv_at self i) k)).

Definition Coordinate_imul_scalar (self : CoordinateType) (k : Scalar)
  : result CoordinateType :=
  Ok (fv_tabulate (fun i => fmul (fv_at self i) k)).

Definition Coordinate_idiv_scalar (self : CoordinateType) (k : Scalar)
  : result CoordinateType :=
  Ok (vdiv self k).

(** The operations registered on [Coordinate], as calls with their
    (already converted) arguments, and what a call returns to Python. *)
Inductive Coordinate_call : Type :=
| call_init_scalar (s : Scalar)
| call_init_buffer (buffer : buffer_info)
| call_init_list (value_list : list handle)
| call_len (c : CoordinateType)
| call_getitem (c : CoordinateType) (index : nat)
| call_setitem (c : CoordinateType) (index : nat) (value : Scalar)
| call_str (c : CoordinateType)
| call_iadd (c other : CoordinateType)
| call_isub (c other : CoordinateType)
| call_iadd_scalar (c : CoordinateType) (k : Scalar)
| call_isub_scalar (c : CoordinateType) (k : Scalar)
| call_imul_scalar (c : CoordinateType) (k : Scalar)
| call_idiv_scalar (c : CoordinateType) (k : Scalar).

Inductive py_value : Type :=
| py_Coordinate (c : CoordinateType)
| py_float (x : Scalar)
| py_int (n : nat)
| py_str (s : string).

Definition returning {A : Type} (wrap : A -> py_value) (r : result A)
  : result py_value :=
  a <- r ;; Ok (wrap a).

Definition Coordinate_run (call : Coordinate_call) : result py_value :=
  match call with
  | call_init_scalar s => returning py_Coordinate (Coordinate_init_scalar s)
  | call_init_buffer b => returning py_Coordinate (Coordinate_init_buffer b)
  | call_init_list l => returning py_Coordinate (Coordinate_init_list l)
  | call_len c => returning py_int (Coordinate_len c)
  | call_getitem c i => returning py_float (Coordinate_getitem c i)
  | call_setitem c i x => returning py_Coordinate (Coordinate_setitem c i x)
  | call_str c => returning py_str (Coordinate_str c)
  | call_iadd c o => returning py_Coordinate (Coordinate_iadd c o)
  | call_isub c o => returning py_Coordinate (Coordinate_isub c o)
  | call_iadd_scalar c k => returning py_Coordinate (Coordinate_iadd_scalar c k)
  | call_isub_scalar c k => returning py_Coordinate (Coordinate_isub_scalar c k)
  | call_imul_scalar c k => returning py_Coordinate (Coordinate_imul_scalar c k)
  | call_idiv_scalar c k => returning py_Coordinate (Coordinate_idiv_scalar c k)
  end.


(** ** [register_dipole] *)

(** [std::copy(first, first + dim, out.begin())] from the cells of a
    buffer, [first] being [data_ptr + offset]. *)
Definition copy_from (info : buffer_info) (offset : Z) : CoordinateType :=
  fold_left (fun out i => fv_store out i (data_at info (offset + Z.of_nat i)))
            (seq 0 dim) fv_default.

(** [py::init<const CoordinateType&, const CoordinateType&>()]. *)
Definition Dipole_init (position moment : CoordinateType) : result (Dipole Scalar) :=
  Ok (mkDipole position moment).

(** [py::init] from a position buffer and a moment buffer. *)
Definition Dipole_init_buffers (position_buffer moment_buffer : buffer_info)
  : result (Dipole Scalar) :=
  let info_position_buffer := position_buffer in
  let info_moment_buffer := moment_buffer in
  if negb (String.eqb (format info_position_buffer) format_Scalar)
     || negb (String.eqb (format info_moment_buffer) format_Scalar) then
    Throw (Dune_Exception "buffer entries are of the wrong type")
  else if negb (ndim info_position_buffer =? 1)%Z
          || negb (ndim info_moment_buffer =? 1)%Z then
    Throw (Dune_Exception
             ("buffers have to consist of 1 dimension, but consist of "
                ++ show_Z (ndim info_position_buffer) ++ "and "
                ++ show_Z (ndim info_moment_buffer) ++ " dimensions"))
  else if negb (shape0 info_position_buffer =? Z.of_nat dim)%Z
          || negb (shape0 info_moment_buffer =? Z.of_nat dim)%Z then
    Throw (Dune_Exception
             ("buffers have to contain 3 entries each, but contain "
                ++ show_Z (shape0 info_position_buffer) ++ " and "
                ++ show_Z (shape0 info_moment_buffer) ++ " entries"))
  else
    Ok (mkDipole (copy_from info_position_buffer 0)
                 (copy_from info_moment_buffer 0)).

(** [py::init] from one buffer, "create dipole from a single buffer
    containing a position and a moment". *)
Definition Dipole_init_buffer (combined_position_moment_buffer : buffer_info)
  : result (Dipole Scalar) :=
  let info_buffer := combined_position_moment_buffer in
  if negb (String.eqb (format info_buffer) format_Scalar) then
    Throw (Dune_Exception "buffer entries are of the wrong type")
  else if negb (ndim info_buffer =? 1)%Z then
    Throw (Dune_Exception
             ("buffer has to consist of 1 dimension, but consists of "
                ++ show_Z (ndim info_buffer) ++ " dimensions"))
  else if negb (shape0 info_buffer =? 2 * Z.of_nat dim)%Z then
    Throw (Dune_Exception
             ("buffer has to contain 6 entries, but contains "
                ++ show_Z (shape0 info_buffer) ++ " entries"))
  else
    Ok (mkDipole (copy_from info_buffer 0)
                 (copy_from info_buffer (Z.of_nat dim))).

(** The loop of the single-list constructor: while [pos_iterator] has not
    reached the end of [position] an element goes there, afterwards to
    [moment]. *)
Fixpoint fill_combined (handles : list handle) (position moment : CoordinateType)
         (pos_iterator moment_iterator : nat)
  : result (CoordinateType * CoordinateType) :=
  match handles with
  | [] => Ok (position, moment)
  | h :: rest =>
      if negb (pos_iterator =? dim)%nat then
        x <- cast_Scalar h ;;
        fill_combined rest (fv_store position pos_iterator x) moment
                      (S pos_iterator) moment_iterator
      else
        x <- cast_Scalar h ;;
        fill_combined rest position (fv_store moment moment_iterator x)
                      pos_iterator (S moment_iterator)
  end.

(** [py::init] from one list, "create dipole from a single list containing
    the position and the moment". *)
Definition Dipole_init_list (combined_list : list handle) : result (Dipole Scalar) :=
  if negb (List.length combined_list =? 2 * dim)%nat then
    Throw (Dune_Exception
             ("list has to be of size 6, but is of size "
                ++ show_size (List.length combined_list)))
  else
    pm <- fill_combined combined_list fv_default fv_default 0 0 ;;
    Ok (mkDipole (fst pm) (snd pm)).

(** [py::init] from two lists, "create dipole from two lists containing
    the position and the moment". *)
Definition Dipole_init_lists (pos_list mom_list : list handle)
  : result (Dipole Scalar) :=
  if negb (List.length pos_list =? dim)%nat
     || negb (List.length mom_list =? dim)%nat then
    Throw (Dune_Exception
             ("lists have to be of size 3, but are of sizes "
                ++ show_size (List.length pos_list) ++ " and "
                ++ show_size (List.length mom_list)))
  else
    position <- transform_cast pos_list fv_default 0 ;;
    moment <- transform_cast mom_list fv_default 0 ;;
    Ok (mkDipole position moment).

(** The accessors [position] and [moment]. *)
Definition Dipole_position (dipole : Dipole Scalar) : result CoordinateType :=
  Ok (position dipole).

Definition Dipole_moment (dipole : Dipole Scalar) : result CoordinateType :=
  Ok (moment dipole).

(** [__str__] of a [Dipole]. *)
Definition Dipole_str (dipole : Dipole Scalar) : result string :=
  let pos := position dipole in
  let mom := moment dipole in
  Ok ("Dipole with position [" ++ show_Scalar (fv_at pos 0)
        ++ ", " ++ show_Scalar (fv_at pos 1)
        ++ ", " ++ show_Scalar (fv_at pos 2) ++ "] and moment ["
        ++ show_Scalar (fv_at mom 0) ++ ", " ++ show_Scalar (fv_at mom 1)
        ++ ", " ++ show_Scalar (fv_at mom 2) ++ "]").

End Binding.

(** Literals of type [double]: an integer, and the quotient of two. *)
Definition dbl (z : Z) : double := fromInt z.
Definition vec (x y z : Z) : FieldVector double := mkFV (dbl x) (dbl y) (dbl z).

(** A zero of either sign, or a NaN: what [x - x] can be. *)
Definition zero_or_nan (x : double) : bool := is_zero x || is_nan x.

(** The local [diffNorm * diffNorm * diffNorm] of [primaryField]. *)
Definition primaryField_denominator {K : Type} `{FieldType K}
           (self : AnalyticSolutionMEG K) (coilPos : FieldVector K) : K :=
  let R := vsub coilPos (sphereCenter_ self) in
  let diff := vsub R (R_0 self) in
  let diffNorm := two_norm diff in
  fmul (fmul diffNorm diffNorm) diffNorm.

(** ** Sample data *)

(** Over the reals: the origin, a dipole at [(3,0,0)] with moment
    [(0,1,0)], and the point [(3,4,0)]. *)
Definition origin_R : FieldVector R := mkFV 0%R 0%R 0%R.
Definition dipole_R : Dipole R := mkDipole (mkFV 3%R 0%R 0%R) (mkFV 0%R 1%R 0%R).
Definition point_R : FieldVector R := mkFV 3%R 4%R 0%R.

(** The same in [double], with a given scaling factor. *)
Definition dipole_d : Dipole double := mkDipole (vec 3 0 0) (vec 0 1 0).

Definition evaluator_d (s : Z) : AnalyticSolutionMEG double :=
  bind (construct (fv_default, fv_default) (vec 0 0 0) (dbl s)) dipole_d.

(** The scenario of the specification: sphere centre at the origin, dipole
    at [(0, 0, 0.07)] with moment [(1, 0, 0)], scaling factor [1]. *)
Definition evaluator_scenario : AnalyticSolutionMEG double :=
  bind (construct (fv_default, fv_default) (vec 0 0 0) (dbl 1))
       (mkDipole (mkFV (dbl 0) (dbl 0) (fdiv (dbl 7) (dbl 100))) (vec 1 0 0)).

(** A buffer of six [double] items [0, 2, 4, 6, 8, 10] that are not
    adjacent in memory: every other cell of the cells [0, 1, 2, ..., 11],
    as a slice with step two exports it (stride of sixteen bytes). *)
Definition strided_buffer : buffer_info :=
  mkBuffer (fun o => dbl (o / sizeof_Scalar)) sizeof_Scalar format_Scalar
           1 [6%Z] [(2 * sizeof_Scalar)%Z].

(** The same six items, adjacent in memory. *)
Definition contiguous_buffer : buffer_info :=
  mkBuffer (fun o => dbl (2 * (o / sizeof_Scalar))) sizeof_Scalar format_Scalar
           1 [6%Z] [sizeof_Scalar].

(** A buffer passes the three checks of the single-buffer constructor of
    [Dipole] with [count = 6], and of the one of [Coordinate] with
    [count = 3]. *)
Definition buffer_accepted (count : Z) (info : buffer_info) : bool :=
  String.eqb (format info) format_Scalar
  && (ndim info =? 1)%Z
  && (shape0 info =? count)%Z.

(** Every element of a list converts to a [Scalar]. *)
Definition all_castable (handles : list handle) : bool :=
  forallb (fun h => match h with h_float _ => true | h_other => false end) handles.


(** ** Vocabulary of the further properties *)

(** The zero vector and the opposite of a vector, over the reals. *)
Definition zero3 : FieldVector R := mkFV 0%R 0%R 0%R.

Definition neg3 (v : FieldVector R) : FieldVector R :=
  mkFV (- fv0 v)%R (- fv1 v)%R (- fv2 v)%R.

(** Some component of a vector of [double] is NaN. *)
Definition has_nan (v : FieldVector double) : bool :=
  is_nan (fv0 v) || is_nan (fv1 v) || is_nan (fv2 v).

(** The Python list of the three components of a vector. *)
Definition floats (v : CoordinateType) : list handle :=
  [h_float (fv0 v); h_float (fv1 v); h_float (fv2 v)].

(** A dipole over the reals whose moment is along its position. *)
Definition radial_dipole_R : Dipole R :=
  mkDipole (mkFV 3%R 0%R 0%R)
           (smul 2%R (diff3 (mkFV 3%R 0%R 0%R) origin_R)).

(** The primary field with the operations in the order of the code: the
    difference vector is divided by the cube of its length first, the
    cross product with the moment and the scaling come after,
    [s (Q x ((R - R_0) / |R - R_0|^3))]. *)
Definition infinite_medium_field_divided {K : Type} `{FieldType K}
           (C : FieldVector K) (s : K) (Q pos coilPos : FieldVector K)
  : FieldVector K :=
  let A := diff3 (diff3 coilPos C) (diff3 pos C) in
  let d := primary_denominator C pos coilPos in
  let X := cross3 Q (mkFV (fdiv (fv0 A) d) (fdiv (fv1 A) d) (fdiv (fv2 A) d)) in
  mkFV (fmul s (fv0 X)) (fmul s (fv1 X)) (fmul s (fv2 X)).

(** The [double] [2^-600]: its square is below the smallest positive
    [double]. *)
Definition tiny : double := S754_finite false 4503599627370496 (-652).

(** A dipole at [(3,0,0)] with moment [(1,2,3)], in [double]. *)
Definition dipole_oblique_d : Dipole double := mkDipole (vec 3 0 0) (vec 1 2 3).


(* ================================================================== *)
(** * The vector operations, component by component                    *)
(* ================================================================== *)

Section FieldVectorFacts.
Context {K : Type} `{FieldType K}.

Local Open Scope field_scope.

Lemma fv_fill_components (t : K) : fv_fill t = mkFV t t t.
Proof. reflexivity. Qed.

Lemma vsub_components (u v : FieldVector K) : vsub u v = diff3 u v.
Proof. reflexivity. Qed.

Lemma vadd_components (u v : FieldVector K) :
  vadd u v = mkFV (fv0 u + fv0 v) (fv1 u + fv1 v) (fv2 u + fv2 v).
Proof. reflexivity. Qed.

Lemma smul_components (k : K) (v : FieldVector K) :
  smul k v = mkFV (k * fv0 v) (k * fv1 v) (k * fv2 v).
Proof. reflexivity. Qed.

Lemma vdiv_components (v : FieldVector K) (k : K) :
  vdiv v k = mkFV (fv0 v / k) (fv1 v / k) (fv2 v / k).
Proof. reflexivity. Qed.

Lemma dot_components (u v : FieldVector K) : dot u v = inner3 u v.
Proof. reflexivity. Qed.

Lemma two_norm_components (v : FieldVector K) : two_norm v = length3 v.
Proof. reflexivity. Qed.

(** The loop of [crossProduct] computes the right-handed cross product. *)
Lemma crossProduct_components (u v : FieldVector K) :
  crossProduct u v = cross3 u v.
Proof. reflexivity. Qed.

(** What [bind] leaves in the object. *)
Lemma bind_state (self : AnalyticSolutionMEG K) (D : Dipole K) :
  bind self D =
  mkMEG (sphereCenter_ self) (scalingFactor_ self) (moment D)
        (diff3 (position D) (sphereCenter_ self)).
Proof. reflexivity. Qed.

(** The two locals of [totalField] are the specification's [F] and
    [grad_F]. *)
Lemma totalField_F_formula (self : AnalyticSolutionMEG K) (coilPos : FieldVector K) :
  totalField_F self coilPos =
  Sarvas_F (R_0 self) (diff3 coilPos (sphereCenter_ self)).
Proof. reflexivity. Qed.

Lemma totalField_grad_F_formula (self : AnalyticSolutionMEG K) (coilPos : FieldVector K) :
  totalField_grad_F self coilPos =
  Sarvas_grad_F (R_0 self) (diff3 coilPos (sphereCenter_ self)).
Proof. reflexivity. Qed.

(** The components of [totalField] in terms of the locals. *)
Lemma totalField_components (self : AnalyticSolutionMEG K) (coilPos : FieldVector K) :
  let F := totalField_F self coilPos in
  let G := totalField_grad_F self coilPos in
  let X := cross3 (moment_ self) (R_0 self) in
  let XR := inner3 X (diff3 coilPos (sphereCenter_ self)) in
  totalField self coilPos =
  mkFV (scalingFactor_ self * (F * fv0 X - XR * fv0 G) / (F * F))
       (scalingFactor_ self * (F * fv1 X - XR * fv1 G) / (F * F))
       (scalingFactor_ self * (F * fv2 X - XR * fv2 G) / (F * F)).
Proof. reflexivity. Qed.

(** The same for an evaluator bound right after its construction. *)
Lemma totalField_bound_components
      (u : FieldVector K * FieldVector K) (C : FieldVector K) (s : K)
      (D : Dipole K) (coilPos : FieldVector K) :
  let R0 := diff3 (position D) C in
  let R := diff3 coilPos C in
  let F := Sarvas_F R0 R in
  let G := Sarvas_grad_F R0 R in
  let X := cross3 (moment D) R0 in
  let XR := inner3 X R in
  totalField (bind (construct u C s) D) coilPos =
  mkFV (s * (F * fv0 X - XR * fv0 G) / (F * F))
       (s * (F * fv1 X - XR * fv1 G) / (F * F))
       (s * (F * fv2 X - XR * fv2 G) / (F * F)).
Proof. reflexivity. Qed.

(** [primaryField] divides the difference vector by the local
    [diffNorm^3], and scales the cross product with the quotient. *)
Lemma primaryField_by_denominator (self : AnalyticSolutionMEG K) (coilPos : FieldVector K) :
  primaryField self coilPos =
  smul (scalingFactor_ self)
       (crossProduct (moment_ self)
                     (vdiv (vsub (vsub coilPos (sphereCenter_ self)) (R_0 self))
                           (primaryField_denominator self coilPos))).
Proof. reflexivity. Qed.

(** The components of [primaryField]: the difference vector is divided
    first, the cross product and the scaling come after. *)
Lemma primaryField_components (self : AnalyticSolutionMEG K) (coilPos : FieldVector K) :
  let A := diff3 (diff3 coilPos (sphereCenter_ self)) (R_0 self) in
  let n := length3 A in
  let d := n * n * n in
  primaryField self coilPos =
  mkFV (scalingFactor_ self * (fv1 (moment_ self) * (fv2 A / d) - fv2 (moment_ self) * (fv1 A / d)))
       (scalingFactor_ self * (fv2 (moment_ self) * (fv0 A / d) - fv0 (moment_ self) * (fv2 A / d)))
       (scalingFactor_ self * (fv0 (moment_ self) * (fv1 A / d) - fv1 (moment_ self) * (fv0 A / d))).
Proof. reflexivity. Qed.

(* ================================================================== *)
(** * The evaluator, for every [FieldType]                             *)
(* ================================================================== *)

(** C1. For an evaluator with sphere centre [C] and scaling factor [s],
    bound to a dipole with moment [Q] and position [pos], so that
    [R_0 = pos - C], [totalField coilPos] is
    [s [F (Q x R_0) - ((Q x R_0) . R) grad_F] / F^2] with [R = coilPos - C],
    [A = R - R_0], [r = |R|], [a = |A|], [F = a (r a + r^2 - R_0 . R)] and
    [grad_F = (a^2/r + (A.R)/a + 2(a + r)) R - (a + 2r + (A.R)/a) R_0], the
    cross product being the right-handed three-component one. It holds for
    every scalar type, with the operations in the order written. *)
Theorem totalField_Sarvas_formula
        (unbound : FieldVector K * FieldVector K) (C : FieldVector K) (s : K)
        (D : Dipole K) (coilPos : FieldVector K) :
  totalField (bind (construct unbound C s) D) coilPos =
  Sarvas_totalField C s (moment D) (position D) coilPos.
Proof.
  rewrite totalField_bound_components.
  reflexivity.
Qed.

(** C3. [secondaryField p] is the componentwise difference
    [primaryField p - totalField p], and the scalar overload
    [secondaryField p d] is the difference of the two scalar overloads
    [primaryField p d - totalField p d], each a scalar product with [d]; it
    is not the scalar product of the vector [secondaryField p] with [d]. *)
Theorem secondaryField_primary_minus_total
        (self : AnalyticSolutionMEG K) (p d : FieldVector K) :
  secondaryField self p = diff3 (primaryField self p) (totalField self p)
  /\ secondaryField_dir self p d =
     primaryField_dir self p d - totalField_dir self p d
  /\ secondaryField_dir self p d =
     inner3 (primaryField self p) d - inner3 (totalField self p) d.
Proof.
  repeat split.
Qed.

(** C4. For every direction [d], of any length, the scalar overloads are
    the scalar product of the vector overload with [d]. *)
Theorem direction_overloads_dot_product
        (self : AnalyticSolutionMEG K) (p d : FieldVector K) :
  totalField_dir self p d = inner3 (totalField self p) d
  /\ primaryField_dir self p d = inner3 (primaryField self p) d.
Proof.
  unfold totalField_dir, primaryField_dir.
  now rewrite !dot_components.
Qed.

(** C6. [bind D] stores [R_0 = position D - sphereCenter] and
    [moment = moment D], keeps [sphereCenter_] and [scalingFactor_], and
    replaces whatever was bound before: binding [D1] and then [D2] gives the
    object that binding [D2] alone gives, so every field query after it is
    the query on that object. [bind] is a total function: there is no
    failure. *)
Theorem bind_overwrites_bound_state
        (self : AnalyticSolutionMEG K) (D1 D2 : Dipole K) :
  R_0 (bind self D2) = diff3 (position D2) (sphereCenter_ self)
  /\ moment_ (bind self D2) = moment D2
  /\ sphereCenter_ (bind self D2) = sphereCenter_ self
  /\ scalingFactor_ (bind self D2) = scalingFactor_ self
  /\ bind (bind self D1) D2 = bind self D2
  /\ (forall p : FieldVector K,
         totalField (bind (bind self D1) D2) p = totalField (bind self D2) p
         /\ primaryField (bind (bind self D1) D2) p = primaryField (bind self D2) p
         /\ secondaryField (bind (bind self D1) D2) p = secondaryField (bind self D2) p)
  /\ (forall p d : FieldVector K,
         totalField_dir (bind (bind self D1) D2) p d = totalField_dir (bind self D2) p d
         /\ primaryField_dir (bind (bind self D1) D2) p d = primaryField_dir (bind self D2) p d
         /\ secondaryField_dir (bind (bind self D1) D2) p d
            = secondaryField_dir (bind self D2) p d).
Proof.
  assert (Hbb : bind (bind self D1) D2 = bind self D2) by reflexivity.
  repeat split; try rewrite Hbb; reflexivity.
Qed.

(** The bound object does not depend on what the members held before the
    first [bind]. *)
Lemma bind_after_construct (u u' : FieldVector K * FieldVector K)
      (C : FieldVector K) (s : K) (D : Dipole K) :
  bind (construct u C s) D = bind (construct u' C s) D.
Proof. reflexivity. Qed.

End FieldVectorFacts.

(* ================================================================== *)
(** * The evaluator in exact arithmetic, [FieldType = R]               *)
(* ================================================================== *)

Section ExactArithmetic.

Local Open Scope R_scope.

Ltac field_ops := cbn [fromInt fadd fsub fmul fdiv fsqrt R_FieldType].

Lemma sum3_R (x y z : R) : sum3 x y z = x + y + z.
Proof. unfold sum3; field_ops. ring. Qed.

Lemma inner3_self_nonneg (u : FieldVector R) : 0 <= inner3 u u.
Proof. unfold inner3. rewrite sum3_R. field_ops. nra. Qed.

Lemma sqrt_of_square (x y : R) : 0 <= y -> x = y * y -> R_sqrt.sqrt x = y.
Proof. intros Hy ->. now apply sqrt_square. Qed.

(** A vector has length zero exactly when its components are zero. *)
Lemma length3_zero_iff (u : FieldVector R) :
  length3 u = 0 <-> fv0 u = 0 /\ fv1 u = 0 /\ fv2 u = 0.
Proof.
  unfold length3; field_ops. split.
  - intros Hs. apply sqrt_eq_0 in Hs; [| apply inner3_self_nonneg].
    unfold inner3 in Hs. rewrite sum3_R in Hs. revert Hs. field_ops. intros Hs.
    repeat split; nra.
  - intros (H0 & H1 & H2). unfold inner3. rewrite sum3_R. field_ops.
    rewrite H0, H1, H2.
    replace (0 * 0 + 0 * 0 + 0 * 0) with 0 by ring. apply sqrt_0.
Qed.

Lemma cube_zero_iff (a : R) : a * a * a = 0 <-> a = 0.
Proof.
  split; intros Ha; [| subst; ring].
  apply Rmult_integral in Ha. destruct Ha as [Ha | Ha]; [| exact Ha].
  apply Rmult_integral in Ha. tauto.
Qed.

(** The denominator of the formula is the local that [primaryField]
    divides by. *)
Lemma primaryField_denominator_formula
      (C : FieldVector R) (s : R) (u : FieldVector R * FieldVector R)
      (D : Dipole R) (coilPos : FieldVector R) :
  primaryField_denominator (bind (construct u C s) D) coilPos =
  primary_denominator C (position D) coilPos.
Proof. reflexivity. Qed.

(** In exact arithmetic, for an evaluator with sphere centre [C] and
    scaling factor [s] bound to a dipole with moment [Q] and position
    [pos], [primaryField coilPos] is [s (Q x (R - R_0)) / |R - R_0|^3] with
    [R = coilPos - C] and [R_0 = pos - C], and the denominator is zero
    exactly when [coilPos] is the dipole position. *)
Theorem primaryField_infinite_medium_formula
        (unbound : FieldVector R * FieldVector R) (C : FieldVector R) (s : R)
        (D : Dipole R) (coilPos : FieldVector R) :
  primaryField (bind (construct unbound C s) D) coilPos =
  infinite_medium_field C s (moment D) (position D) coilPos
  /\ (primaryField_denominator (bind (construct unbound C s) D) coilPos = 0
      <-> coilPos = position D).
Proof.
  split.
  - rewrite primaryField_components, bind_state.
    unfold infinite_medium_field, primary_denominator, cross3.
    cbn [sphereCenter_ scalingFactor_ moment_ R_0 construct fv0 fv1 fv2].
    field_ops.
    f_equal; unfold Rdiv; ring.
  - rewrite primaryField_denominator_formula.
    unfold primary_denominator. field_ops.
    rewrite cube_zero_iff, length3_zero_iff.
    destruct coilPos as [p0 p1 p2], D as [[q0 q1 q2] Q], C as [c0 c1 c2].
    cbn [diff3 fv0 fv1 fv2 position]. field_ops.
    split.
    + intros (H0 & H1 & H2). f_equal; lra.
    + intros Heq. injection Heq as -> -> ->. repeat split; lra.
Qed.

(** ** Linearity in the scaling factor *)

Lemma diff3_origin (v : FieldVector R) : diff3 v origin_R = v.
Proof.
  destruct v as [x y z]. unfold diff3, origin_R. cbn [fv0 fv1 fv2].
  field_ops. f_equal; lra.
Qed.

Lemma diff3_point_dipole : diff3 point_R (position dipole_R) = mkFV 0 4 0.
Proof.
  unfold diff3, point_R, dipole_R. cbn [fv0 fv1 fv2 position].
  field_ops. f_equal; lra.
Qed.

Lemma length3_point : length3 point_R = 5.
Proof.
  unfold length3, inner3, point_R. rewrite sum3_R. cbn [fv0 fv1 fv2]. field_ops.
  apply sqrt_of_square; lra.
Qed.

Lemma length3_point_dipole : length3 (mkFV 0 4 0 : FieldVector R) = 4.
Proof.
  unfold length3, inner3. rewrite sum3_R. cbn [fv0 fv1 fv2]. field_ops.
  apply sqrt_of_square; lra.
Qed.

(** [F] at the sample point: [4 (5 * 4 + 25 - 9) = 144]. *)
Lemma Sarvas_F_sample :
  Sarvas_F (diff3 (position dipole_R) origin_R) (diff3 point_R origin_R) = 144.
Proof.
  rewrite !diff3_origin. unfold Sarvas_F.
  rewrite diff3_point_dipole, length3_point, length3_point_dipole.
  unfold inner3, point_R, dipole_R. rewrite sum3_R.
  cbn [fv0 fv1 fv2 position]. field_ops. lra.
Qed.

(** C5, as stated, fails. With [s1 = 0] and [s2 = 1] (so [s2 <> 0]) the
    second evaluator returns the third component [-3/144] at the sample
    point, while every multiple of the first evaluator's field, which is
    zero, is zero. *)
Lemma scaling_invariance_counterexample :
  1 <> 0
  /\ totalField (bind (construct (origin_R, origin_R) origin_R 1) dipole_R) point_R
     <> smul (1 / 0)
             (totalField (bind (construct (origin_R, origin_R) origin_R 0) dipole_R)
                         point_R).
Proof.
  split; [lra |].
  rewrite !totalField_bound_components, smul_components.
  cbv zeta. cbn [fv0 fv1 fv2].
  rewrite Sarvas_F_sample, !diff3_origin.
  set (G := Sarvas_grad_F _ _).
  intros Heq. apply (f_equal fv2) in Heq. cbn [fv2] in Heq.
  revert Heq. unfold cross3, inner3. rewrite !sum3_R.
  cbn [fv0 fv1 fv2 point_R dipole_R position moment]. field_ops.
  unfold Rdiv. rewrite !Rmult_0_l, Rmult_0_r.
  intros Heq. lra.
Qed.

(** C5, amended. In exact arithmetic, two evaluators with the same sphere
    centre and scaling factors [s1 <> 0] and [s2], bound to the same dipole,
    satisfy [totalField_2 p = (s2 / s1) totalField_1 p] at every point. *)
Theorem scaling_invariance
        (u1 u2 : FieldVector R * FieldVector R) (C : FieldVector R)
        (s1 s2 : R) (D : Dipole R) (p : FieldVector R) :
  s1 <> 0 ->
  totalField (bind (construct u2 C s2) D) p =
  smul (s2 / s1) (totalField (bind (construct u1 C s1) D) p).
Proof.
  intros Hs1.
  rewrite !totalField_bound_components, smul_components.
  cbv zeta. cbn [fv0 fv1 fv2]. field_ops.
  set (F := Sarvas_F _ _). set (G := Sarvas_grad_F _ _).
  set (X := cross3 _ _). set (XR := inner3 _ _).
  unfold Rdiv. generalize (/ (F * F)). intros iFF.
  f_equal; field; exact Hs1.
Qed.

Lemma scaling_invariance_witness :
  2 <> 0
  /\ totalField (bind (construct (origin_R, origin_R) origin_R 3) dipole_R) point_R
     = smul (3 / 2)
            (totalField (bind (construct (origin_R, origin_R) origin_R 2) dipole_R)
                        point_R).
Proof.
  split; [lra | apply scaling_invariance; lra].
Defined.

End ExactArithmetic.

(* ================================================================== *)
(** * The evaluator in binary64, [FieldType = double]                  *)
(* ================================================================== *)

Section Binary64.

Local Open Scope field_scope.

(** ** How zeros, infinities and NaN go through the operations *)

Lemma fromInt_0_double : (fromInt 0 : double) = S754_zero false.
Proof. reflexivity. Qed.

(** [x - x] is [+0] for a finite [x] and NaN for an infinity or a NaN. *)
Lemma fsub_self (x : double) : zero_or_nan (x - x) = true.
Proof.
  destruct x as [[|] | [|] | | s m e]; try reflexivity.
  cbn [fsub double_FieldType].
  unfold SFsub. rewrite Z.min_id. unfold shl_align.
  rewrite (Z.sub_diag e : IntDef.Z.sub e e = 0%Z). cbn [fst].
  rewrite (Z.sub_diag _
           : IntDef.Z.sub (cond_Zopp s (Z.pos m)) (cond_Zopp s (Z.pos m)) = 0%Z).
  reflexivity.
Qed.

Lemma fadd_zero_or_nan (x y : double) :
  zero_or_nan x = true -> zero_or_nan y = true -> zero_or_nan (x + y) = true.
Proof.
  destruct x as [[|] | [|] | | ? ? ?], y as [[|] | [|] | | ? ? ?];
    try discriminate; reflexivity.
Qed.

Lemma fmul_zero_or_nan (x y : double) :
  zero_or_nan x = true -> zero_or_nan y = true -> zero_or_nan (x * y) = true.
Proof.
  destruct x as [[|] | [|] | | ? ? ?], y as [[|] | [|] | | ? ? ?];
    try discriminate; reflexivity.
Qed.

Lemma fsqrt_zero_or_nan (x : double) :
  zero_or_nan x = true -> zero_or_nan (fsqrt x) = true.
Proof. destruct x as [[|] | [|] | | ? ? ?]; try discriminate; reflexivity. Qed.

(** [0/0], [0/NaN], [NaN/0] and [NaN/NaN] are NaN. *)
Lemma fdiv_zero_or_nan (x y : double) :
  zero_or_nan x = true -> zero_or_nan y = true -> x / y = S754_nan.
Proof.
  destruct x as [[|] | [|] | | ? ? ?], y as [[|] | [|] | | ? ? ?];
    try discriminate; reflexivity.
Qed.

(** A division by a zero never gives a finite number: an infinity for a
    non-zero dividend, NaN for a zero or a NaN. *)
Lemma fdiv_by_zero (x z : double) :
  is_zero z = true -> non_finite (x / z) = true.
Proof.
  destruct z as [? | ? | | ? ? ?]; try discriminate.
  destruct x as [[|] | [|] | | ? ? ?]; reflexivity.
Qed.

Lemma fmul_zero_zero (x y : double) :
  is_zero x = true -> is_zero y = true -> is_zero (x * y) = true.
Proof.
  destruct x as [? | ? | | ? ? ?], y as [? | ? | | ? ? ?];
    try discriminate; reflexivity.
Qed.

Lemma fmul_non_finite (m x : double) :
  non_finite x = true -> non_finite (m * x) = true.
Proof.
  destruct x as [? | ? | | ? ? ?]; try discriminate;
    destruct m as [[|] | [|] | | ? ? ?]; reflexivity.
Qed.

Lemma fsub_non_finite (x y : double) :
  non_finite x = true -> non_finite y = true -> non_finite (x - y) = true.
Proof.
  destruct x as [? | [|] | | ? ? ?], y as [? | [|] | | ? ? ?];
    try discriminate; reflexivity.
Qed.

Lemma fmul_nan_r (m : double) : m * S754_nan = S754_nan.
Proof. destruct m as [[|] | [|] | | ? ? ?]; reflexivity. Qed.

Lemma inner3_zero_or_nan (u : FieldVector double) :
  zero_or_nan (fv0 u) = true -> zero_or_nan (fv1 u) = true ->
  zero_or_nan (fv2 u) = true ->
  zero_or_nan (inner3 u u) = true.
Proof.
  intros. unfold inner3, sum3.
  repeat first [apply fadd_zero_or_nan | apply fmul_zero_or_nan]; auto.
Qed.

(** ** Degenerate denominators *)

(** When [F] is a zero, each component of [totalField] is a quotient by
    [F * F = +0]. *)
Lemma totalField_F_zero (self : AnalyticSolutionMEG double) (p : FieldVector double) :
  is_zero (totalField_F self p) = true ->
  all_non_finite (totalField self p) = true.
Proof.
  intros HF. rewrite totalField_components. cbv zeta.
  unfold all_non_finite. cbn [fv0 fv1 fv2].
  rewrite !fdiv_by_zero; auto using fmul_zero_zero.
Qed.

(** When [diffNorm^3] is a zero, the three quotients [diff[i] / 0] are
    non-finite, and so are the products and differences made of them. *)
Lemma primaryField_denominator_zero
      (self : AnalyticSolutionMEG double) (p : FieldVector double) :
  is_zero (primaryField_denominator self p) = true ->
  all_non_finite (primaryField self p) = true.
Proof.
  intros Hz. rewrite primaryField_components. cbv zeta.
  unfold all_non_finite. cbn [fv0 fv1 fv2].
  rewrite !fmul_non_finite; [reflexivity | | | ];
    apply fsub_non_finite; apply fmul_non_finite; apply fdiv_by_zero; exact Hz.
Qed.

(** At the dipole position itself the difference vector has components
    [x - x], the denominator is a zero (or NaN, for non-finite input) and
    all three components of [primaryField] are NaN. *)
Lemma primaryField_at_dipole_position
      (self : AnalyticSolutionMEG double) (D : Dipole double) :
  zero_or_nan (primaryField_denominator (bind self D) (position D)) = true
  /\ primaryField (bind self D) (position D) = nan3.
Proof.
  unfold primaryField_denominator.
  rewrite primaryField_components, bind_state, !vsub_components, two_norm_components.
  cbv zeta. cbn [sphereCenter_ scalingFactor_ moment_ R_0].
  set (A := diff3 _ _).
  assert (HA : zero_or_nan (fv0 A) = true /\ zero_or_nan (fv1 A) = true
               /\ zero_or_nan (fv2 A) = true).
  { unfold A. cbn [diff3 fv0 fv1 fv2]. repeat split; apply fsub_self. }
  destruct HA as (H0 & H1 & H2).
  assert (Hn : zero_or_nan (length3 A) = true).
  { unfold length3. apply fsqrt_zero_or_nan, inner3_zero_or_nan; assumption. }
  assert (Hd : zero_or_nan (length3 A * length3 A * length3 A) = true).
  { repeat apply fmul_zero_or_nan; assumption. }
  split; [exact Hd |].
  rewrite !(fdiv_zero_or_nan _ _) by assumption.
  repeat rewrite fmul_nan_r. reflexivity.
Qed.

(** A sum, a difference or a product with a non-finite operand is
    non-finite. *)
Lemma fadd_non_finite_r (x y : double) :
  non_finite y = true -> non_finite (x + y) = true.
Proof.
  destruct y as [? | [|] | | ? ? ?]; try discriminate;
    destruct x as [[|] | [|] | | ? ? ?]; reflexivity.
Qed.

Lemma fsub_non_finite_l (x y : double) :
  non_finite x = true -> non_finite (x - y) = true.
Proof.
  destruct x as [? | [|] | | ? ? ?]; try discriminate;
    destruct y as [[|] | [|] | | ? ? ?]; reflexivity.
Qed.

Lemma fsub_non_finite_r (x y : double) :
  non_finite y = true -> non_finite (x - y) = true.
Proof.
  destruct y as [? | [|] | | ? ? ?]; try discriminate;
    destruct x as [[|] | [|] | | ? ? ?]; reflexivity.
Qed.

Lemma fmul_non_finite_l (x d : double) :
  non_finite x = true -> non_finite (x * d) = true.
Proof.
  destruct x as [? | [|] | | ? ? ?]; try discriminate;
    destruct d as [[|] | [|] | | ? ? ?]; reflexivity.
Qed.

Lemma all_non_finite_components (v : FieldVector double) :
  all_non_finite v = true ->
  non_finite (fv0 v) = true /\ non_finite (fv1 v) = true
  /\ non_finite (fv2 v) = true.
Proof.
  unfold all_non_finite. intros Hv.
  apply andb_prop in Hv. destruct Hv as [Hv H2].
  apply andb_prop in Hv. destruct Hv as [H0 H1]. auto.
Qed.

(** The scalar product of a non-finite vector with any direction, the
    zero direction included, is non-finite. *)
Lemma dot_non_finite (v d : FieldVector double) :
  all_non_finite v = true -> non_finite (dot v d) = true.
Proof.
  intros Hv. destruct (all_non_finite_components v Hv) as (_ & _ & H2).
  change (dot v d) with (inner3 v d). unfold inner3, sum3.
  apply fadd_non_finite_r, fmul_non_finite_l, H2.
Qed.

Lemma diff3_non_finite_l (u v : FieldVector double) :
  all_non_finite u = true -> all_non_finite (diff3 u v) = true.
Proof.
  intros Hu. destruct (all_non_finite_components u Hu) as (H0 & H1 & H2).
  unfold all_non_finite, diff3. cbn [fv0 fv1 fv2].
  rewrite !fsub_non_finite_l by assumption. reflexivity.
Qed.

Lemma diff3_non_finite_r (u v : FieldVector double) :
  all_non_finite v = true -> all_non_finite (diff3 u v) = true.
Proof.
  intros Hv. destruct (all_non_finite_components v Hv) as (H0 & H1 & H2).
  unfold all_non_finite, diff3. cbn [fv0 fv1 fv2].
  rewrite !fsub_non_finite_r by assumption. reflexivity.
Qed.

(** A non-finite [totalField] makes its projection and both overloads of
    [secondaryField] non-finite. *)
Lemma totalField_non_finite_spreads
      (self : AnalyticSolutionMEG double) (p d : FieldVector double) :
  all_non_finite (totalField self p) = true ->
  all_non_finite (totalField self p) = true
  /\ non_finite (totalField_dir self p d) = true
  /\ all_non_finite (secondaryField self p) = true
  /\ non_finite (secondaryField_dir self p d) = true.
Proof.
  intros Ht.
  assert (Htd : non_finite (totalField_dir self p d) = true)
    by (apply dot_non_finite, Ht).
  repeat split; try assumption.
  - unfold secondaryField. rewrite vsub_components.
    apply diff3_non_finite_r, Ht.
  - unfold secondaryField_dir. apply fsub_non_finite_r, Htd.
Qed.

(** The same for a non-finite [primaryField]. *)
Lemma primaryField_non_finite_spreads
      (self : AnalyticSolutionMEG double) (p d : FieldVector double) :
  all_non_finite (primaryField self p) = true ->
  all_non_finite (primaryField self p) = true
  /\ non_finite (primaryField_dir self p d) = true
  /\ all_non_finite (secondaryField self p) = true
  /\ non_finite (secondaryField_dir self p d) = true.
Proof.
  intros Hp.
  assert (Hpd : non_finite (primaryField_dir self p d) = true)
    by (apply dot_non_finite, Hp).
  repeat split; try assumption.
  - unfold secondaryField. rewrite vsub_components.
    apply diff3_non_finite_l, Hp.
  - unfold secondaryField_dir. apply fsub_non_finite_l, Hpd.
Qed.

(** C8. In binary64, a degenerate denominator gives non-finite results in
    every field method it reaches, for every direction (the zero
    direction included). When [F] is zero, every component of
    [totalField] and of [secondaryField] is an infinity or a NaN, and so
    are the scalars [totalField(p, d)] and [secondaryField(p, d)]. When the
    denominator [diffNorm^3] of [primaryField] is zero, and in particular
    when the coil position is the position of the bound dipole, the same
    holds of [primaryField], [secondaryField], [primaryField(p, d)] and
    [secondaryField(p, d)]. The field methods have no other outcome than a
    vector or a scalar: nothing is raised and no zero is substituted. *)
Theorem degenerate_denominator_non_finite
        (self : AnalyticSolutionMEG double) (D : Dipole double)
        (coilPos direction : FieldVector double) :
  (is_zero (totalField_F (bind self D) coilPos) = true ->
   all_non_finite (totalField (bind self D) coilPos) = true
   /\ non_finite (totalField_dir (bind self D) coilPos direction) = true
   /\ all_non_finite (secondaryField (bind self D) coilPos) = true
   /\ non_finite (secondaryField_dir (bind self D) coilPos direction) = true)
  /\ (is_zero (primaryField_denominator (bind self D) coilPos) = true ->
      all_non_finite (primaryField (bind self D) coilPos) = true
      /\ non_finite (primaryField_dir (bind self D) coilPos direction) = true
      /\ all_non_finite (secondaryField (bind self D) coilPos) = true
      /\ non_finite (secondaryField_dir (bind self D) coilPos direction) = true)
  /\ (coilPos = position D ->
      all_non_finite (primaryField (bind self D) coilPos) = true
      /\ non_finite (primaryField_dir (bind self D) coilPos direction) = true
      /\ all_non_finite (secondaryField (bind self D) coilPos) = true
      /\ non_finite (secondaryField_dir (bind self D) coilPos direction) = true).
Proof.
  split; [| split].
  - intros HF. apply totalField_non_finite_spreads, totalField_F_zero, HF.
  - intros Hd.
    apply primaryField_non_finite_spreads, primaryField_denominator_zero, Hd.
  - intros ->. apply primaryField_non_finite_spreads.
    destruct (primaryField_at_dipole_position self D) as [_ ->]. reflexivity.
Qed.

Lemma degenerate_denominator_non_finite_witness :
  (is_zero (totalField_F (evaluator_d 1) (position dipole_d)) = true
   /\ all_non_finite (totalField (evaluator_d 1) (position dipole_d)) = true
   /\ non_finite (totalField_dir (evaluator_d 1) (position dipole_d)
                                 (vec 0 0 0)) = true
   /\ all_non_finite (secondaryField (evaluator_d 1) (position dipole_d)) = true
   /\ non_finite (secondaryField_dir (evaluator_d 1) (position dipole_d)
                                     (vec 0 0 0)) = true)
  /\ (is_zero (primaryField_denominator (evaluator_d 1) (position dipole_d)) = true
      /\ all_non_finite (primaryField (evaluator_d 1) (position dipole_d)) = true
      /\ non_finite (primaryField_dir (evaluator_d 1) (position dipole_d)
                                      (vec 0 0 0)) = true
      /\ all_non_finite (secondaryField (evaluator_d 1) (position dipole_d)) = true
      /\ non_finite (secondaryField_dir (evaluator_d 1) (position dipole_d)
                                        (vec 0 0 0)) = true)
  /\ (position dipole_d = position dipole_d
      /\ all_non_finite (primaryField (evaluator_d 1) (position dipole_d)) = true
      /\ non_finite (primaryField_dir (evaluator_d 1) (position dipole_d)
                                      (vec 0 0 0)) = true
      /\ all_non_finite (secondaryField (evaluator_d 1) (position dipole_d)) = true
      /\ non_finite (secondaryField_dir (evaluator_d 1) (position dipole_d)
                                        (vec 0 0 0)) = true).
Proof.
  destruct (degenerate_denominator_non_finite
              (construct (fv_default, fv_default) (vec 0 0 0) (dbl 1))
              dipole_d (position dipole_d) (vec 0 0 0))
    as (Htotal & Hdenominator & Hprimary).
  split; [| split].
  - split; [vm_compute; reflexivity | apply Htotal; vm_compute; reflexivity].
  - split; [vm_compute; reflexivity
           | apply Hdenominator; vm_compute; reflexivity].
  - split; [reflexivity | apply Hprimary; reflexivity].
Defined.

(** ** Values at sample points *)

(** [totalField] at [(3,4,0)] for the sample dipole is [(0, 0, -1/48)],
    rounded. *)
Example totalField_sample :
  totalField (evaluator_d 1) (vec 3 4 0)
  = mkFV (S754_zero false) (S754_zero false)
         (S754_finite true 6004799503160661 (-58)).
Proof. vm_compute. reflexivity. Qed.

(** The scenario of the specification: the field of a tangential dipole on
    the z axis has no radial component on that axis. *)
Example totalField_scenario :
  is_zero (totalField_dir evaluator_scenario
                          (mkFV (dbl 0) (dbl 0) (fdiv (dbl 15) (dbl 100)))
                          (vec 0 0 1)) = true.
Proof. vm_compute. reflexivity. Qed.

(** The scalar [secondaryField] is not the projection of the vector one:
    at this point the two differ in the last place. *)
Example secondaryField_dir_not_projection :
  let p := mkFV (dbl 0) (fdiv (dbl 1) (dbl 10)) (fdiv (dbl 15) (dbl 100)) in
  let d := mkFV (fdiv (dbl 1) (dbl 3)) (fdiv (dbl 1) (dbl 7)) (fdiv (dbl 2) (dbl 3)) in
  secondaryField_dir evaluator_scenario p d
  <> dot (secondaryField evaluator_scenario p) d.
Proof. vm_compute. discriminate. Qed.

(** With a scaling factor [0] in the first evaluator the quotient [s2/s1]
    is an infinity and its product with the zero field is NaN. *)
Example scaling_by_zero_double :
  smul (dbl 1 / dbl 0) (totalField (evaluator_d 0) (vec 3 4 0)) = nan3
  /\ all_non_finite (totalField (evaluator_d 1) (vec 3 4 0)) = false.
Proof. vm_compute. split; reflexivity. Qed.

(** In binary64 the linearity in the scaling factor holds up to rounding
    only: with [s1 = 7] and [s2 = 3] the two sides differ at [(1,4,2)]. *)
Example scaling_rounding_double :
  totalField (evaluator_d 3) (vec 1 4 2)
  <> smul (dbl 3 / dbl 7) (totalField (evaluator_d 7) (vec 1 4 2)).
Proof. vm_compute. discriminate. Qed.

End Binary64.

(* ================================================================== *)
(** * The primary field in both arithmetics                            *)
(* ================================================================== *)

(** C2, as stated, fails in binary64. At the coil position
    [(3, 2^-600, 0)], which is not the position [(3, 0, 0)] of the dipole,
    the square of the distance underflows and the denominator is [+0]. And
    for the dipole with moment [(1, 2, 3)] and the coil position
    [(1, 4, 2)] the value of [s (Q x (R - R_0)) / |R - R_0|^3], with the
    division last, is not the value [primaryField] returns. *)
Lemma primaryField_formula_counterexample :
  mkFV (dbl 3) tiny (dbl 0) <> position dipole_d
  /\ primaryField_denominator (evaluator_d 1) (mkFV (dbl 3) tiny (dbl 0))
     = S754_zero false
  /\ primaryField
       (bind (construct (fv_default, fv_default) (vec 0 0 0) (dbl 1))
             dipole_oblique_d)
       (vec 1 4 2)
     <> infinite_medium_field (vec 0 0 0) (dbl 1) (moment dipole_oblique_d)
                              (position dipole_oblique_d) (vec 1 4 2).
Proof.
  split; [| split].
  - vm_compute. discriminate.
  - vm_compute. reflexivity.
  - vm_compute. discriminate.
Qed.

(** C2, amended. For an evaluator with sphere centre [C] and scaling
    factor [s], bound to a dipole with moment [Q] and position [pos],
    [primaryField coilPos] is [s (Q x ((R - R_0) / |R - R_0|^3))] with
    [R = coilPos - C] and [R_0 = pos - C]: the difference vector is divided
    first, for every scalar type. In exact arithmetic this is
    [s (Q x (R - R_0)) / |R - R_0|^3], and the denominator is zero exactly
    when [coilPos] is the dipole position. In binary64 the denominator at
    the dipole position is a zero (a NaN for non-finite coordinates) and
    all three components of the field are NaN. *)
Theorem primaryField_formula_and_degeneracy :
  (forall (K : Type) (FT : FieldType K)
          (unbound : FieldVector K * FieldVector K) (C : FieldVector K) (s : K)
          (D : Dipole K) (coilPos : FieldVector K),
      primaryField (bind (construct unbound C s) D) coilPos
      = infinite_medium_field_divided C s (moment D) (position D) coilPos
      /\ primaryField_denominator (bind (construct unbound C s) D) coilPos
         = primary_denominator C (position D) coilPos)
  /\ (forall (unbound : FieldVector R * FieldVector R) (C : FieldVector R)
             (s : R) (D : Dipole R) (coilPos : FieldVector R),
        primaryField (bind (construct unbound C s) D) coilPos
        = infinite_medium_field C s (moment D) (position D) coilPos
        /\ (primaryField_denominator (bind (construct unbound C s) D) coilPos
            = 0%R
            <-> coilPos = position D))
  /\ (forall (self : AnalyticSolutionMEG double) (D : Dipole double),
        zero_or_nan (primaryField_denominator (bind self D) (position D)) = true
        /\ primaryField (bind self D) (position D) = nan3).
Proof.
  split; [| split].
  - intros K FT unbound C s D coilPos. split; reflexivity.
  - intros unbound C s D coilPos.
    apply primaryField_infinite_medium_formula.
  - intros self D. apply primaryField_at_dipole_position.
Qed.

(* ================================================================== *)
(** * The binding                                                       *)
(* ================================================================== *)

Section BindingFacts.

Variable DUNE_CHECK_BOUNDS : bool.
Variable show_Scalar : Scalar -> string.

(** ** Construction of a [Coordinate] *)

(** C10. The one-argument constructor [py::init<Scalar>()] builds the
    vector whose three components are the given scalar. *)
Theorem Coordinate_init_scalar_broadcast (s : Scalar) :
  Coordinate_init_scalar s = Ok (mkFV s s s)
  /\ Coordinate_run DUNE_CHECK_BOUNDS show_Scalar (call_init_scalar s)
     = Ok (py_Coordinate (mkFV s s s)).
Proof. split; reflexivity. Qed.

(** The buffer constructor succeeds exactly on the buffers that pass its
    three checks, and then reads the first three cells after the pointer. *)
Lemma Coordinate_init_buffer_outcome (info : buffer_info) :
  if buffer_accepted (Z.of_nat dim) info
  then Coordinate_init_buffer info
       = Ok (mkFV (data_at info 0) (data_at info 1) (data_at info 2))
  else exists what, Coordinate_init_buffer info = Throw (Dune_Exception what).
Proof.
  unfold buffer_accepted, Coordinate_init_buffer.
  destruct (String.eqb (format info) format_Scalar); cbn [negb andb];
    [| eexists; reflexivity].
  destruct (ndim info =? 1)%Z; cbn [negb andb]; [| eexists; reflexivity].
  destruct (shape0 info =? Z.of_nat dim)%Z; cbn [negb]; [reflexivity |].
  eexists; reflexivity.
Qed.

(** The buffer a [Coordinate] exports is accepted and read back as the
    same vector. *)
Lemma Coordinate_buffer_roundtrip (v : CoordinateType) :
  Coordinate_init_buffer (Coordinate_buffer v) = Ok (mkFV (fv0 v) (fv1 v) (fv2 v))
  /\ buffer_items (Coordinate_buffer v) = [fv0 v; fv1 v; fv2 v].
Proof. split; reflexivity. Qed.

(** [std::transform] with the cast succeeds exactly when every element
    converts; a failure is the [cast_error] of the first one that does not. *)
Lemma transform_cast_outcome (handles : list handle) :
  forall (out : CoordinateType) (i : nat),
    if all_castable handles
    then exists c, transform_cast handles out i = Ok c
    else transform_cast handles out i = Throw cast_error.
Proof.
  induction handles as [| h rest IH]; intros out i; cbn.
  - eexists; reflexivity.
  - destruct h as [x |]; cbn; [apply IH | reflexivity].
Qed.

Lemma Coordinate_init_list_outcome (value_list : list handle) :
  is_error (Coordinate_init_list value_list)
  = negb ((List.length value_list =? dim)%nat && all_castable value_list)
  /\ is_IndexError (Coordinate_init_list value_list) = false.
Proof.
  unfold Coordinate_init_list.
  destruct (List.length value_list =? dim)%nat; cbn [negb andb]; [| split; reflexivity].
  generalize (transform_cast_outcome value_list fv_default 0).
  destruct (all_castable value_list).
  - intros [c ->]. split; reflexivity.
  - intros ->. split; reflexivity.
Qed.

(** A list of three numbers gives the vector of these numbers. *)
Lemma Coordinate_init_list_three (x y z : Scalar) :
  Coordinate_init_list [h_float x; h_float y; h_float z] = Ok (mkFV x y z).
Proof. reflexivity. Qed.

(** ** Indexed access *)



(** ** Construction of a [Dipole] from one buffer *)

(** The constructor succeeds exactly on the buffers that pass its three
    checks (format, one dimension, six entries), whatever their strides,
    and then copies the first six cells after the pointer; on the others
    it throws a [Dune::Exception]. *)
Lemma Dipole_init_buffer_outcome (info : buffer_info) :
  if buffer_accepted 6 info
  then Dipole_init_buffer info
       = Ok (mkDipole (mkFV (data_at info 0) (data_at info 1) (data_at info 2))
                      (mkFV (data_at info 3) (data_at info 4) (data_at info 5)))
  else exists what, Dipole_init_buffer info = Throw (Dune_Exception what).
Proof.
  unfold buffer_accepted, Dipole_init_buffer.
  destruct (String.eqb (format info) format_Scalar); cbn [negb andb];
    [| eexists; reflexivity].
  destruct (ndim info =? 1)%Z; cbn [negb andb]; [| eexists; reflexivity].
  change (2 * Z.of_nat dim)%Z with 6%Z.
  destruct (shape0 info =? 6)%Z; cbn [negb]; [reflexivity |].
  eexists; reflexivity.
Qed.

(** The messages of the three rejections. *)
Example Dipole_init_buffer_wrong_type :
  Dipole_init_buffer (mkBuffer (fun _ => dbl 0) 4 "f" 1 [6%Z] [4%Z])
  = Throw (Dune_Exception "buffer entries are of the wrong type").
Proof. reflexivity. Qed.

Example Dipole_init_buffer_wrong_ndim :
  Dipole_init_buffer (mkBuffer (fun _ => dbl 0) 8 "d" 2 [2%Z; 3%Z] [24%Z; 8%Z])
  = Throw (Dune_Exception
             "buffer has to consist of 1 dimension, but consists of 2 dimensions").
Proof. reflexivity. Qed.

Example Dipole_init_buffer_wrong_count :
  Dipole_init_buffer (mkBuffer (fun _ => dbl 0) 8 "d" 1 [5%Z] [8%Z])
  = Throw (Dune_Exception "buffer has to contain 6 entries, but contains 5 entries").
Proof. reflexivity. Qed.

(** When the items are adjacent in memory (stride [sizeof(Scalar)]), the
    six cells read are the six items of the buffer. *)
Lemma Dipole_init_buffer_adjacent (info : buffer_info) :
  buffer_accepted 6 info = true ->
  hd 0%Z (strides info) = sizeof_Scalar ->
  exists D,
    Dipole_init_buffer info = Ok D
    /\ buffer_items info
       = [fv0 (position D); fv1 (position D); fv2 (position D);
          fv0 (moment D); fv1 (moment D); fv2 (moment D)].
Proof.
  intros Hacc Hstride.
  generalize (Dipole_init_buffer_outcome info). rewrite Hacc. intros ->.
  eexists; split; [reflexivity |].
  unfold buffer_accepted in Hacc.
  apply andb_prop in Hacc. destruct Hacc as [_ Hshape].
  apply Z.eqb_eq in Hshape.
  unfold buffer_items. rewrite Hshape, Hstride. reflexivity.
Qed.

Example Dipole_init_buffer_contiguous :
  buffer_items contiguous_buffer = map dbl [0; 2; 4; 6; 8; 10]%Z
  /\ Dipole_init_buffer contiguous_buffer
     = Ok (mkDipole (vec 0 2 4) (vec 6 8 10)).
Proof. vm_compute. split; reflexivity. Qed.

(** The single-list constructor, the sibling of the single-buffer one,
    splits the six elements of any list into position and moment. *)
Lemma Dipole_init_list_six (px py pz mx my mz : Scalar) :
  Dipole_init_list [h_float px; h_float py; h_float pz;
                    h_float mx; h_float my; h_float mz]
  = Ok (mkDipole (mkFV px py pz) (mkFV mx my mz)).
Proof. reflexivity. Qed.

(** C7. The buffer of the six items [0, 2, 4, 6, 8, 10] with a stride of
    sixteen bytes has the right element type, one dimension and six
    entries, so it passes every check; the constructor then reads six
    adjacent cells and returns the dipole with position [(0, 1, 2)] and
    moment [(3, 4, 5)] instead of [(0, 2, 4)] and [(6, 8, 10)]. *)
Theorem Dipole_init_buffer_strided :
  buffer_accepted 6 strided_buffer = true
  /\ buffer_items strided_buffer = map dbl [0; 2; 4; 6; 8; 10]%Z
  /\ Dipole_init_buffer strided_buffer = Ok (mkDipole (vec 0 1 2) (vec 3 4 5))
  /\ Dipole_init_buffer strided_buffer <> Ok (mkDipole (vec 0 2 4) (vec 6 8 10)).
Proof.
  vm_compute. repeat split. discriminate.
Qed.

End BindingFacts.


(* ================================================================== *)
(** * Further properties of the evaluator in exact arithmetic          *)
(* ================================================================== *)

(** Replaces the vector operations by their components. *)
Ltac components :=
  repeat match goal with
  | |- context [vsub ?a ?b] => change (vsub a b) with (diff3 a b)
  | |- context [vadd ?a ?b] =>
      change (vadd a b)
        with (mkFV (fadd (fv0 a) (fv0 b)) (fadd (fv1 a) (fv1 b))
                   (fadd (fv2 a) (fv2 b)))
  | |- context [smul ?k ?a] =>
      change (smul k a)
        with (mkFV (fmul k (fv0 a)) (fmul k (fv1 a)) (fmul k (fv2 a)))
  | |- context [dot ?a ?b] => change (dot a b) with (inner3 a b)
  | |- context [crossProduct ?a ?b] =>
      change (crossProduct a b) with (cross3 a b)
  end.

Ltac real_ops := cbn [fromInt fadd fsub fmul fdiv fsqrt R_FieldType].

Section ExactArithmeticFurther.

Local Open Scope R_scope.

Lemma inner3_R (u v : FieldVector R) :
  inner3 u v = fv0 u * fv0 v + fv1 u * fv1 v + fv2 u * fv2 v.
Proof. unfold inner3. rewrite sum3_R. reflexivity. Qed.

Lemma length3_sqr (v : FieldVector R) : length3 v * length3 v = inner3 v v.
Proof. unfold length3. real_ops. apply sqrt_sqrt, inner3_self_nonneg. Qed.

(** ** The cross product *)

(** X1. Over the reals [crossProduct] is antisymmetric, vanishes on a
    pair of equal vectors and is orthogonal to both of its arguments. *)
Theorem crossProduct_laws (u v : FieldVector R) :
  crossProduct u v = neg3 (crossProduct v u)
  /\ crossProduct u u = zero3
  /\ dot (crossProduct u v) u = 0
  /\ dot (crossProduct u v) v = 0.
Proof.
  unfold neg3, zero3. components. rewrite !inner3_R.
  unfold cross3. cbn [fv0 fv1 fv2]. real_ops.
  split; [f_equal; ring |]. split; [f_equal; ring |]. split; ring.
Qed.

(** ** The radial component *)

(** The algebra behind the radial identity, in the scalars [a = |A|],
    [r = |R|] and [d = R_0 . R]. *)
Lemma radial_scalar_identity (a r d s XR : R) :
  a <> 0 -> r <> 0 -> r * a + r * r - d <> 0 ->
  s * (a * (r * a + r * r - d) * XR
       - XR * ((a * a / r + (r * r - d) / a + 2 * (a + r)) * (r * r)
               - (a + 2 * r + (r * r - d) / a) * d))
    / (a * (r * a + r * r - d) * (a * (r * a + r * r - d)))
  = s * (- XR) / (a * a * a).
Proof. intros. field. repeat split; assumption. Qed.

(** X2. Outside the degenerate points ([R <> 0] and [F <> 0]) the total
    field and the primary field have the same component along
    [R = coilPos - sphereCenter]: the secondary field is tangential. *)
Theorem radial_component
        (u : FieldVector R * FieldVector R) (C : FieldVector R) (s : R)
        (D : Dipole R) (p : FieldVector R) :
  length3 (diff3 p C) <> 0 ->
  totalField_F (bind (construct u C s) D) p <> 0 ->
  dot (totalField (bind (construct u C s) D) p) (diff3 p C)
  = dot (primaryField (bind (construct u C s) D) p) (diff3 p C)
  /\ dot (secondaryField (bind (construct u C s) D) p) (diff3 p C) = 0.
Proof.
  intros Hr HF.
  assert (Heq : dot (totalField (bind (construct u C s) D) p) (diff3 p C)
                = dot (primaryField (bind (construct u C s) D) p) (diff3 p C)).
  { rewrite totalField_F_formula in HF. rewrite bind_state in HF.
    cbn [R_0 sphereCenter_ construct] in HF.
    rewrite totalField_bound_components, primaryField_components, bind_state.
    cbv zeta. cbn [sphereCenter_ scalingFactor_ moment_ R_0 construct].
    set (R0 := diff3 (position D) C) in *. set (R := diff3 p C) in *.
    set (Q := moment D).
    components. rewrite !inner3_R. cbn [fv0 fv1 fv2].
    set (G := Sarvas_grad_F R0 R). set (X := cross3 Q R0).
    set (A := diff3 R R0).
    assert (HGR : fv0 G * fv0 R + fv1 G * fv1 R + fv2 G * fv2 R
                  = (length3 A * length3 A / length3 R
                     + (inner3 R R - inner3 R0 R) / length3 A
                     + 2 * (length3 A + length3 R)) * inner3 R R
                    - (length3 A + 2 * length3 R
                       + (inner3 R R - inner3 R0 R) / length3 A) * inner3 R0 R).
    { unfold G, Sarvas_grad_F. cbv zeta. fold A. cbn [fv0 fv1 fv2]. real_ops.
      replace (inner3 A R) with (inner3 R R - inner3 R0 R)
        by (unfold A; rewrite !inner3_R; cbn [diff3 fv0 fv1 fv2]; real_ops; ring).
      rewrite !(inner3_R R R), !(inner3_R R0 R). unfold Rdiv. ring. }
    rewrite <- (length3_sqr R) in HGR.
    unfold Sarvas_F in HF |- *. cbv zeta in HF |- *. fold A in HF |- *.
    real_ops. revert HF. real_ops. intros HF.
    set (a := length3 A) in *. set (r := length3 R) in *.
    set (d := inner3 R0 R) in *.
    assert (Ha : a <> 0) by (intros E; apply HF; rewrite E; ring).
    assert (Hc : r * a + r * r - d <> 0) by (intros E; apply HF; rewrite E; ring).
    transitivity (s * (a * (r * a + r * r - d) * inner3 X R
                        - inner3 X R
                          * (fv0 G * fv0 R + fv1 G * fv1 R + fv2 G * fv2 R))
                   / (a * (r * a + r * r - d) * (a * (r * a + r * r - d)))).
    { rewrite inner3_R. unfold Rdiv. ring. }
    rewrite HGR. fold a r d. rewrite radial_scalar_identity by assumption.
    rewrite inner3_R. unfold X, cross3, A. cbn [diff3 fv0 fv1 fv2]. real_ops.
    unfold Rdiv. ring. }
  split; [exact Heq |].
  unfold secondaryField. revert Heq. components. rewrite !inner3_R.
  cbn [diff3 fv0 fv1 fv2]. real_ops. intros Heq.
  ring_simplify. ring_simplify in Heq. lra.
Qed.

Lemma radial_component_witness :
  length3 (diff3 point_R origin_R) <> 0
  /\ totalField_F (bind (construct (origin_R, origin_R) origin_R 1) dipole_R)
                  point_R <> 0
  /\ dot (totalField (bind (construct (origin_R, origin_R) origin_R 1) dipole_R)
                     point_R) (diff3 point_R origin_R)
     = dot (primaryField (bind (construct (origin_R, origin_R) origin_R 1) dipole_R)
                         point_R) (diff3 point_R origin_R)
  /\ dot (secondaryField (bind (construct (origin_R, origin_R) origin_R 1) dipole_R)
                         point_R) (diff3 point_R origin_R) = 0.
Proof.
  assert (Hr : length3 (diff3 point_R origin_R) <> 0)
    by (rewrite diff3_origin, length3_point; lra).
  assert (HF : totalField_F (bind (construct (origin_R, origin_R) origin_R 1)
                                  dipole_R) point_R <> 0).
  { rewrite totalField_F_formula, bind_state.
    cbn [R_0 sphereCenter_ construct]. rewrite Sarvas_F_sample. lra. }
  split; [exact Hr |]. split; [exact HF |].
  apply radial_component; assumption.
Defined.

(** ** Silent sources *)

(** When the moment has no part across [R_0], the numerator of
    [totalField] vanishes. *)
Lemma totalField_cross_zero
      (u : FieldVector R * FieldVector R) (C : FieldVector R) (s : R)
      (D : Dipole R) (p : FieldVector R) :
  cross3 (moment D) (diff3 (position D) C) = zero3 ->
  totalField (bind (construct u C s) D) p = zero3.
Proof.
  intros HX. rewrite totalField_bound_components. cbv zeta. rewrite HX.
  rewrite inner3_R. unfold zero3. cbn [fv0 fv1 fv2]. real_ops.
  f_equal; unfold Rdiv; ring.
Qed.

(** X3. A dipole whose moment is a multiple of [R_0] (a radial dipole)
    has total field zero at every point outside the degenerate ones
    ([R <> 0] and [F <> 0]); its secondary field there is the whole primary
    field. *)
Theorem radial_dipole_silent
        (u : FieldVector R * FieldVector R) (C : FieldVector R) (s k : R)
        (D : Dipole R) (p : FieldVector R) :
  moment D = smul k (diff3 (position D) C) ->
  length3 (diff3 p C) <> 0 ->
  totalField_F (bind (construct u C s) D) p <> 0 ->
  totalField (bind (construct u C s) D) p = zero3
  /\ secondaryField (bind (construct u C s) D) p
     = primaryField (bind (construct u C s) D) p.
Proof.
  intros HQ _ _.
  assert (Ht : totalField (bind (construct u C s) D) p = zero3).
  { apply totalField_cross_zero. rewrite HQ. components.
    unfold cross3, zero3. cbn [fv0 fv1 fv2]. real_ops. f_equal; ring. }
  split; [exact Ht |].
  unfold secondaryField. rewrite Ht. components.
  destruct (primaryField _ p) as [x y z].
  unfold diff3, zero3. cbn [fv0 fv1 fv2]. real_ops. f_equal; ring.
Qed.

Lemma radial_dipole_silent_witness :
  moment radial_dipole_R = smul 2 (diff3 (position radial_dipole_R) origin_R)
  /\ length3 (diff3 point_R origin_R) <> 0
  /\ totalField_F (bind (construct (origin_R, origin_R) origin_R 1)
                        radial_dipole_R) point_R <> 0
  /\ totalField (bind (construct (origin_R, origin_R) origin_R 1) radial_dipole_R)
                point_R = zero3
  /\ secondaryField (bind (construct (origin_R, origin_R) origin_R 1)
                          radial_dipole_R) point_R
     = primaryField (bind (construct (origin_R, origin_R) origin_R 1)
                          radial_dipole_R) point_R.
Proof.
  assert (Hr : length3 (diff3 point_R origin_R) <> 0)
    by (rewrite diff3_origin, length3_point; lra).
  assert (HF : totalField_F (bind (construct (origin_R, origin_R) origin_R 1)
                                  radial_dipole_R) point_R <> 0).
  { rewrite totalField_F_formula, bind_state.
    cbn [R_0 sphereCenter_ construct].
    change (position radial_dipole_R) with (position dipole_R).
    rewrite Sarvas_F_sample. lra. }
  split; [reflexivity |]. split; [exact Hr |]. split; [exact HF |].
  apply radial_dipole_silent with (k := 2); [reflexivity | exact Hr | exact HF].
Defined.

(** For a dipole at the sphere centre, [F] is [2 r^3]. *)
Lemma Sarvas_F_centre (C p : FieldVector R) :
  Sarvas_F (diff3 C C) (diff3 p C)
  = length3 (diff3 p C)
    * (length3 (diff3 p C) * length3 (diff3 p C)
       + length3 (diff3 p C) * length3 (diff3 p C) - 0).
Proof.
  unfold Sarvas_F. cbv zeta.
  replace (diff3 (diff3 p C) (diff3 C C)) with (diff3 p C)
    by (unfold diff3; cbn [fv0 fv1 fv2]; real_ops; f_equal; ring).
  replace (inner3 (diff3 C C) (diff3 p C)) with 0
    by (rewrite inner3_R; unfold diff3; cbn [fv0 fv1 fv2]; real_ops; ring).
  real_ops. reflexivity.
Qed.

(** X4. A dipole located at the sphere centre has total field zero at
    every point other than the centre, whatever its moment; there [F] is
    not zero. *)
Theorem dipole_at_centre_silent
        (u : FieldVector R * FieldVector R) (C : FieldVector R) (s : R)
        (D : Dipole R) (p : FieldVector R) :
  position D = C ->
  length3 (diff3 p C) <> 0 ->
  totalField_F (bind (construct u C s) D) p <> 0
  /\ totalField (bind (construct u C s) D) p = zero3.
Proof.
  intros HC Hr. split.
  - rewrite totalField_F_formula, bind_state.
    cbn [R_0 sphereCenter_ construct]. rewrite HC, Sarvas_F_centre.
    set (r := length3 (diff3 p C)) in *. intros E.
    apply Rmult_integral in E. destruct E as [E | E]; [contradiction |].
    assert (E2 : r * r = 0) by lra.
    apply Rmult_integral in E2. destruct E2; contradiction.
  - apply totalField_cross_zero. rewrite HC.
    unfold cross3, diff3, zero3. cbn [fv0 fv1 fv2]. real_ops. f_equal; ring.
Qed.

Lemma dipole_at_centre_silent_witness :
  position dipole_R = position dipole_R
  /\ length3 (diff3 point_R (position dipole_R)) <> 0
  /\ totalField_F (bind (construct (origin_R, origin_R) (position dipole_R) 1)
                        dipole_R) point_R <> 0
  /\ totalField (bind (construct (origin_R, origin_R) (position dipole_R) 1)
                      dipole_R) point_R = zero3.
Proof.
  assert (Hr : length3 (diff3 point_R (position dipole_R)) <> 0)
    by (rewrite diff3_point_dipole, length3_point_dipole; lra).
  split; [reflexivity |]. split; [exact Hr |].
  apply dipole_at_centre_silent; [reflexivity | exact Hr].
Defined.

(** ** Linearity *)

(** X5. The three fields are additive in the moment: the field of the
    dipole with moment [Q1 + Q2] is the sum of the fields of the dipoles
    with moments [Q1] and [Q2] at the same position. *)
Theorem moment_superposition
        (u : FieldVector R * FieldVector R) (C : FieldVector R) (s : R)
        (pos Q1 Q2 p : FieldVector R) :
  let ev Q := bind (construct u C s) (mkDipole pos Q) in
  totalField (ev (vadd Q1 Q2)) p
  = vadd (totalField (ev Q1) p) (totalField (ev Q2) p)
  /\ primaryField (ev (vadd Q1 Q2)) p
     = vadd (primaryField (ev Q1) p) (primaryField (ev Q2) p)
  /\ secondaryField (ev (vadd Q1 Q2)) p
     = vadd (secondaryField (ev Q1) p) (secondaryField (ev Q2) p).
Proof.
  intros ev.
  assert (Ht : totalField (ev (vadd Q1 Q2)) p
               = vadd (totalField (ev Q1) p) (totalField (ev Q2) p)).
  { unfold ev. rewrite !totalField_bound_components. components. cbv zeta.
    cbn [position moment fv0 fv1 fv2].
    set (F := Sarvas_F _ _). set (G := Sarvas_grad_F _ _).
    rewrite !inner3_R. unfold cross3. cbn [fv0 fv1 fv2]. real_ops.
    f_equal; unfold Rdiv; ring. }
  assert (Hp : primaryField (ev (vadd Q1 Q2)) p
               = vadd (primaryField (ev Q1) p) (primaryField (ev Q2) p)).
  { unfold ev. rewrite !primaryField_components, !bind_state. components.
    cbv zeta.
    cbn [position moment moment_ R_0 scalingFactor_ sphereCenter_ construct
         fv0 fv1 fv2].
    set (A := diff3 _ _). set (n := length3 A). real_ops.
    f_equal; unfold Rdiv; ring. }
  split; [exact Ht |]. split; [exact Hp |].
  unfold secondaryField. rewrite Ht, Hp. components.
  unfold diff3. cbn [fv0 fv1 fv2]. real_ops. f_equal; ring.
Qed.

(** X6. The three fields are homogeneous in the moment: scaling the
    moment by [k] scales the fields by [k]. *)
Theorem moment_homogeneity
        (u : FieldVector R * FieldVector R) (C : FieldVector R) (s k : R)
        (pos Q p : FieldVector R) :
  let ev Q := bind (construct u C s) (mkDipole pos Q) in
  totalField (ev (smul k Q)) p = smul k (totalField (ev Q) p)
  /\ primaryField (ev (smul k Q)) p = smul k (primaryField (ev Q) p)
  /\ secondaryField (ev (smul k Q)) p = smul k (secondaryField (ev Q) p).
Proof.
  intros ev.
  assert (Ht : totalField (ev (smul k Q)) p = smul k (totalField (ev Q) p)).
  { unfold ev. rewrite !totalField_bound_components. components. cbv zeta.
    cbn [position moment fv0 fv1 fv2].
    set (F := Sarvas_F _ _). set (G := Sarvas_grad_F _ _).
    rewrite !inner3_R. unfold cross3. cbn [fv0 fv1 fv2]. real_ops.
    f_equal; unfold Rdiv; ring. }
  assert (Hp : primaryField (ev (smul k Q)) p = smul k (primaryField (ev Q) p)).
  { unfold ev. rewrite !primaryField_components, !bind_state. components.
    cbv zeta.
    cbn [position moment moment_ R_0 scalingFactor_ sphereCenter_ construct
         fv0 fv1 fv2].
    set (A := diff3 _ _). set (n := length3 A). real_ops.
    f_equal; unfold Rdiv; ring. }
  split; [exact Ht |]. split; [exact Hp |].
  unfold secondaryField. rewrite Ht, Hp. components.
  unfold diff3. cbn [fv0 fv1 fv2]. real_ops. f_equal; ring.
Qed.

(** X7. Each field of an evaluator with scaling factor [s] is [s] times
    the field of the evaluator with scaling factor [1]. *)
Theorem scalingFactor_homogeneity
        (u u' : FieldVector R * FieldVector R) (C : FieldVector R) (s : R)
        (D : Dipole R) (p : FieldVector R) :
  let e := bind (construct u C s) D in
  let e1 := bind (construct u' C 1) D in
  totalField e p = smul s (totalField e1 p)
  /\ primaryField e p = smul s (primaryField e1 p)
  /\ secondaryField e p = smul s (secondaryField e1 p).
Proof.
  intros e e1.
  assert (Ht : totalField e p = smul s (totalField e1 p)).
  { unfold e, e1. rewrite !totalField_bound_components. components. cbv zeta.
    cbn [fv0 fv1 fv2].
    set (F := Sarvas_F _ _). set (G := Sarvas_grad_F _ _).
    set (X := cross3 _ _). set (XR := inner3 _ _).
    real_ops. f_equal; unfold Rdiv; ring. }
  assert (Hp : primaryField e p = smul s (primaryField e1 p)).
  { unfold e, e1. rewrite !primaryField_components, !bind_state. components.
    cbv zeta.
    cbn [moment_ R_0 scalingFactor_ sphereCenter_ construct fv0 fv1 fv2].
    set (A := diff3 _ _). set (n := length3 A). real_ops.
    f_equal; unfold Rdiv; ring. }
  split; [exact Ht |]. split; [exact Hp |].
  unfold secondaryField. rewrite Ht, Hp. components.
  unfold diff3. cbn [fv0 fv1 fv2]. real_ops. f_equal; ring.
Qed.

(** ** Geometry *)

Lemma diff3_translate (p C t : FieldVector R) :
  diff3 (vadd p t) (vadd C t) = diff3 p C.
Proof.
  components. unfold diff3. cbn [fv0 fv1 fv2]. real_ops. f_equal; ring.
Qed.

(** X8. Moving the sphere centre, the dipole and the coil by the same
    vector [t] changes none of the three fields. *)
Theorem translation_invariance
        (u u' : FieldVector R * FieldVector R) (C t : FieldVector R) (s : R)
        (pos Q p : FieldVector R) :
  let e := bind (construct u C s) (mkDipole pos Q) in
  let e' := bind (construct u' (vadd C t) s) (mkDipole (vadd pos t) Q) in
  totalField e' (vadd p t) = totalField e p
  /\ primaryField e' (vadd p t) = primaryField e p
  /\ secondaryField e' (vadd p t) = secondaryField e p.
Proof.
  intros e e'.
  assert (Ht : totalField e' (vadd p t) = totalField e p).
  { unfold e, e'. rewrite !totalField_bound_components. cbv zeta.
    cbn [position moment]. rewrite !diff3_translate. reflexivity. }
  assert (Hp : primaryField e' (vadd p t) = primaryField e p).
  { unfold e, e'. rewrite !primaryField_components, !bind_state. cbv zeta.
    cbn [position moment moment_ R_0 scalingFactor_ sphereCenter_ construct].
    rewrite !diff3_translate. reflexivity. }
  split; [exact Ht |]. split; [exact Hp |].
  unfold secondaryField. now rewrite Ht, Hp.
Qed.

(** X9. The primary field is orthogonal to the moment and to the vector
    from the dipole to the coil, [R - R_0]. *)
Theorem primaryField_orthogonal (self : AnalyticSolutionMEG R) (p : FieldVector R) :
  dot (primaryField self p) (moment_ self) = 0
  /\ dot (primaryField self p)
         (vsub (vsub p (sphereCenter_ self)) (R_0 self)) = 0.
Proof.
  rewrite primaryField_components. components. rewrite !inner3_R. cbv zeta.
  set (A := diff3 _ _). set (n := length3 A). cbn [fv0 fv1 fv2]. real_ops.
  split; unfold Rdiv; ring.
Qed.

(** X10. In exact arithmetic the total and the secondary field add up to
    the primary field, and the scalar [secondaryField] is the projection
    of the vector one on the direction. *)
Theorem field_decomposition (self : AnalyticSolutionMEG R) (p d : FieldVector R) :
  vadd (totalField self p) (secondaryField self p) = primaryField self p
  /\ secondaryField_dir self p d = dot (secondaryField self p) d
  /\ totalField_dir self p d + secondaryField_dir self p d
     = primaryField_dir self p d.
Proof.
  unfold secondaryField_dir, totalField_dir, primaryField_dir, secondaryField.
  components. rewrite !inner3_R.
  destruct (primaryField self p) as [x y z], (totalField self p) as [a b c].
  unfold diff3. cbn [fv0 fv1 fv2]. real_ops.
  split; [f_equal; ring |]. split; ring.
Qed.

End ExactArithmeticFurther.

(* ================================================================== *)
(** * Further properties of the evaluator in binary64                  *)
(* ================================================================== *)

Section Binary64Further.

Local Open Scope field_scope.

(** ** Commutativity of the rounded sum *)

Lemma fadd_comm (x y : double) : x + y = y + x.
Proof.
  destruct x as [[|] | [|] | | sx mx ex], y as [[|] | [|] | | sy my ey];
    try reflexivity.
  cbn [fadd double_FieldType SFadd].
  rewrite (Z.min_comm ey ex).
  rewrite (Z.add_comm _ _
           : IntDef.Z.add
               (cond_Zopp sy (Z.pos (fst (shl_align my ey (Z.min ex ey)))))
               (cond_Zopp sx (Z.pos (fst (shl_align mx ex (Z.min ex ey)))))
             = IntDef.Z.add
                 (cond_Zopp sx (Z.pos (fst (shl_align mx ex (Z.min ex ey)))))
                 (cond_Zopp sy (Z.pos (fst (shl_align my ey (Z.min ex ey)))))).
  reflexivity.
Qed.

(** ** NaN in the input *)

Lemma fadd_nan_l (y : double) : @fadd double _ S754_nan y = S754_nan.
Proof. reflexivity. Qed.

Lemma fadd_nan_r (x : double) : x + S754_nan = S754_nan.
Proof. destruct x as [[|] | [|] | | ? ? ?]; reflexivity. Qed.

Lemma fsub_nan_l (y : double) : @fsub double _ S754_nan y = S754_nan.
Proof. reflexivity. Qed.

Lemma fsub_nan_r (x : double) : x - S754_nan = S754_nan.
Proof. destruct x as [[|] | [|] | | ? ? ?]; reflexivity. Qed.

Lemma fmul_nan_l (y : double) : @fmul double _ S754_nan y = S754_nan.
Proof. reflexivity. Qed.

Lemma fdiv_nan_r (x : double) : x / S754_nan = S754_nan.
Proof. destruct x as [[|] | [|] | | ? ? ?]; reflexivity. Qed.

Lemma is_nan_eq (x : double) : is_nan x = true -> x = S754_nan.
Proof. destruct x; try discriminate; reflexivity. Qed.

Lemma has_nan_cases (u : FieldVector double) :
  has_nan u = true ->
  fv0 u = S754_nan \/ fv1 u = S754_nan \/ fv2 u = S754_nan.
Proof.
  unfold has_nan. intros Hu.
  apply orb_true_iff in Hu. destruct Hu as [Hu | Hu];
    [apply orb_true_iff in Hu; destruct Hu as [Hu | Hu] |];
    apply is_nan_eq in Hu; auto.
Qed.

Lemma has_nan_diff3 (u v : FieldVector double) :
  has_nan u || has_nan v = true -> has_nan (diff3 u v) = true.
Proof.
  intros Huv. apply orb_true_iff in Huv.
  unfold has_nan, diff3. cbn [fv0 fv1 fv2].
  destruct Huv as [Hu | Hv].
  - destruct (has_nan_cases u Hu) as [E | [E | E]]; rewrite E, fsub_nan_l;
      cbn; rewrite ?orb_true_r; reflexivity.
  - destruct (has_nan_cases v Hv) as [E | [E | E]]; rewrite E, fsub_nan_r;
      cbn; rewrite ?orb_true_r; reflexivity.
Qed.

Lemma length3_nan (u : FieldVector double) :
  has_nan u = true -> length3 u = S754_nan.
Proof.
  intros Hu. unfold length3, inner3, sum3.
  destruct (has_nan_cases u Hu) as [E | [E | E]]; rewrite E, fmul_nan_l;
    repeat first [rewrite fadd_nan_r | rewrite fadd_nan_l]; reflexivity.
Qed.

Lemma totalField_nan_input (self : AnalyticSolutionMEG double) (p : FieldVector double) :
  has_nan p || has_nan (sphereCenter_ self) = true -> totalField self p = nan3.
Proof.
  intros Hp. rewrite totalField_components. cbv zeta.
  assert (HF : totalField_F self p = S754_nan).
  { rewrite totalField_F_formula. unfold Sarvas_F. cbv zeta.
    rewrite (@length3_nan (diff3 p (sphereCenter_ self)))
      by now apply has_nan_diff3.
    rewrite !fmul_nan_l, fadd_nan_l, fsub_nan_l, fmul_nan_r. reflexivity. }
  rewrite HF, fmul_nan_l, !fdiv_nan_r. reflexivity.
Qed.

Lemma primaryField_nan_input (self : AnalyticSolutionMEG double) (p : FieldVector double) :
  has_nan p || has_nan (sphereCenter_ self) = true -> primaryField self p = nan3.
Proof.
  intros Hp. rewrite primaryField_components. cbv zeta.
  rewrite (@length3_nan (diff3 (diff3 p (sphereCenter_ self)) (R_0 self))).
  - rewrite !fmul_nan_l, !fdiv_nan_r. repeat rewrite fmul_nan_r. reflexivity.
  - apply has_nan_diff3. rewrite has_nan_diff3 by exact Hp. reflexivity.
Qed.

(** X12. In binary64, when a coordinate of the coil position or of the
    sphere centre is NaN, every component of the three vector fields is
    NaN and so are the three scalar fields, for every direction. *)
Theorem nan_input_propagates
        (self : AnalyticSolutionMEG double) (p d : FieldVector double) :
  has_nan p || has_nan (sphereCenter_ self) = true ->
  totalField self p = nan3
  /\ primaryField self p = nan3
  /\ secondaryField self p = nan3
  /\ is_nan (totalField_dir self p d) = true
  /\ is_nan (primaryField_dir self p d) = true
  /\ is_nan (secondaryField_dir self p d) = true.
Proof.
  intros Hp.
  assert (Ht : totalField self p = nan3)
    by (apply totalField_nan_input; exact Hp).
  assert (Hq : primaryField self p = nan3)
    by (apply primaryField_nan_input; exact Hp).
  unfold secondaryField_dir, totalField_dir, primaryField_dir, secondaryField.
  rewrite Ht, Hq.
  change (dot nan3 d) with (inner3 nan3 d).
  unfold inner3, sum3, nan3. cbn [fv0 fv1 fv2].
  rewrite !fmul_nan_l, !fadd_nan_r.
  repeat split.
Qed.

Lemma nan_input_propagates_witness :
  has_nan (mkFV S754_nan (dbl 4) (dbl 0))
  || has_nan (sphereCenter_ (evaluator_d 1)) = true
  /\ totalField (evaluator_d 1) (mkFV S754_nan (dbl 4) (dbl 0)) = nan3
  /\ primaryField (evaluator_d 1) (mkFV S754_nan (dbl 4) (dbl 0)) = nan3
  /\ secondaryField (evaluator_d 1) (mkFV S754_nan (dbl 4) (dbl 0)) = nan3
  /\ is_nan (totalField_dir (evaluator_d 1) (mkFV S754_nan (dbl 4) (dbl 0))
                            (vec 0 0 1)) = true
  /\ is_nan (primaryField_dir (evaluator_d 1) (mkFV S754_nan (dbl 4) (dbl 0))
                              (vec 0 0 1)) = true
  /\ is_nan (secondaryField_dir (evaluator_d 1) (mkFV S754_nan (dbl 4) (dbl 0))
                                (vec 0 0 1)) = true.
Proof.
  split; [reflexivity |].
  apply nan_input_propagates. reflexivity.
Defined.

End Binary64Further.

(* ================================================================== *)
(** * Further properties of the binding                                *)
(* ================================================================== *)

Section BindingFurther.

Variable DUNE_CHECK_BOUNDS : bool.

(** ** [Coordinate] *)

(** X13. After a successful [__setitem__] at an index, [__getitem__] at
    that index returns the value written, and at every other index it
    returns what it returned before. *)
Theorem Coordinate_setitem_getitem
        (c c' : CoordinateType) (i : nat) (x : Scalar) :
  Coordinate_setitem DUNE_CHECK_BOUNDS c i x = Ok c' ->
  Coordinate_getitem DUNE_CHECK_BOUNDS c' i = Ok x
  /\ (forall j, j <> i ->
        Coordinate_getitem DUNE_CHECK_BOUNDS c' j
        = Coordinate_getitem DUNE_CHECK_BOUNDS c j).
Proof.
  unfold Coordinate_setitem, Coordinate_getitem, subscript_assign, subscript.
  destruct i as [| [| [| i]]]; cbn;
    try (destruct DUNE_CHECK_BOUNDS; discriminate);
    intros Hset; injection Hset as <-; (split; [reflexivity |]);
    intros [| [| [| j]]] Hj; try reflexivity; now elim Hj.
Qed.

(** X14. The buffer that a [Coordinate] exports is accepted by the buffer
    constructor and gives the same vector back; its items are the three
    components. *)
Theorem Coordinate_buffer_import (v : CoordinateType) :
  Coordinate_init_buffer (Coordinate_buffer v) = Ok v
  /\ buffer_items (Coordinate_buffer v) = [fv0 v; fv1 v; fv2 v].
Proof. destruct v as [x y z]. split; reflexivity. Qed.

(** X15. The list constructor returns a vector exactly for the lists of
    three numbers, and the vector has these numbers as components. *)
Theorem Coordinate_init_list_iff (value_list : list handle) (v : CoordinateType) :
  Coordinate_init_list value_list = Ok v <-> value_list = floats v.
Proof.
  split.
  - destruct value_list as [| [a |] [| [b |] [| [c |] [| d rest]]]];
      cbn; try discriminate.
    intros Hv. injection Hv as <-. reflexivity.
  - intros ->. destruct v as [x y z]. reflexivity.
Qed.

(** X16. Dividing a [Coordinate] in place by a zero raises nothing: the
    call returns, and every component of the result is an infinity or a
    NaN. *)
Theorem Coordinate_idiv_zero (c : CoordinateType) (k : Scalar) :
  is_zero k = true ->
  exists v, Coordinate_idiv_scalar c k = Ok v /\ all_non_finite v = true.
Proof.
  intros Hk. eexists; split; [reflexivity |].
  change (vdiv c k) with (mkFV (fdiv (fv0 c) k) (fdiv (fv1 c) k) (fdiv (fv2 c) k)).
  unfold all_non_finite. cbn [fv0 fv1 fv2].
  rewrite !fdiv_by_zero by exact Hk. reflexivity.
Qed.

(** X17. In binary64 the in-place sum of two vectors has the same three
    values whichever of the two is the receiver, a NaN in a component
    being a NaN either way (sign and payload of a NaN are not
    represented). *)
Theorem Coordinate_iadd_comm (c other : CoordinateType) :
  Coordinate_iadd c other = Coordinate_iadd other c.
Proof.
  unfold Coordinate_iadd. f_equal.
  change (vadd c other)
    with (mkFV (fadd (fv0 c) (fv0 other)) (fadd (fv1 c) (fv1 other))
               (fadd (fv2 c) (fv2 other))).
  change (vadd other c)
    with (mkFV (fadd (fv0 other) (fv0 c)) (fadd (fv1 other) (fv1 c))
               (fadd (fv2 other) (fv2 c))).
  f_equal; apply fadd_comm.
Qed.

(** X18. When the items of an accepted buffer are adjacent in memory, the
    buffer constructor of [Coordinate] returns the vector of the three
    items. *)
Theorem Coordinate_init_buffer_adjacent (info : buffer_info) :
  buffer_accepted 3 info = true ->
  hd 0%Z (strides info) = sizeof_Scalar ->
  exists v, Coordinate_init_buffer info = Ok v
            /\ buffer_items info = [fv0 v; fv1 v; fv2 v].
Proof.
  intros Hacc Hstride.
  generalize (Coordinate_init_buffer_outcome info).
  change (Z.of_nat dim) with 3%Z. rewrite Hacc. intros ->.
  eexists; split; [reflexivity |].
  unfold buffer_accepted in Hacc.
  apply andb_prop in Hacc. destruct Hacc as [_ Hshape].
  apply Z.eqb_eq in Hshape.
  unfold buffer_items. rewrite Hshape, Hstride. reflexivity.
Qed.

(** ** [Dipole] *)

(** X19. The single-list constructor returns a dipole exactly for the
    lists of six numbers; the first three are the position and the last
    three the moment. *)
Theorem Dipole_init_list_iff (combined_list : list handle) (D : Dipole Scalar) :
  Dipole_init_list combined_list = Ok D
  <-> combined_list = (floats (position D) ++ floats (moment D))%list.
Proof.
  split.
  - destruct combined_list
      as [| [a |] [| [b |] [| [c |] [| [d |] [| [e |] [| [f |] [| g rest]]]]]]];
      cbn; try discriminate.
    intros HD. injection HD as <-. reflexivity.
  - intros ->. destruct D as [[x y z] [a b c]]. reflexivity.
Qed.

(** X20. The two-list constructor returns a dipole exactly for two lists
    of three numbers each, the position and the moment. *)
Theorem Dipole_init_lists_iff (pos_list mom_list : list handle) (D : Dipole Scalar) :
  Dipole_init_lists pos_list mom_list = Ok D
  <-> pos_list = floats (position D) /\ mom_list = floats (moment D).
Proof.
  split.
  - destruct pos_list as [| [a |] [| [b |] [| [c |] [| ? ?]]]];
      cbn; try discriminate;
      destruct mom_list as [| [d |] [| [e |] [| [f |] [| ? ?]]]];
      cbn; try discriminate.
    intros HD. injection HD as <-. split; reflexivity.
  - intros [-> ->]. destruct D as [[x y z] [a b c]]. reflexivity.
Qed.

(** X21. On two lists of three elements the two-list constructor and the
    single-list constructor applied to their concatenation have the same
    outcome, also when an element does not convert. *)
Theorem Dipole_init_lists_agree (pos_list mom_list : list handle) :
  List.length pos_list = 3%nat -> List.length mom_list = 3%nat ->
  Dipole_init_list (pos_list ++ mom_list)%list
  = Dipole_init_lists pos_list mom_list.
Proof.
  intros Hp Hm.
  destruct pos_list as [| a [| b [| c [| ? ?]]]]; try discriminate Hp.
  destruct mom_list as [| d [| e [| f [| ? ?]]]]; try discriminate Hm.
  destruct a, b, c, d, e, f; reflexivity.
Qed.

(** X22. On an accepted buffer whose items are adjacent in memory, the
    single-buffer constructor has the outcome of the single-list
    constructor on the list of the buffer's items. *)
Theorem Dipole_init_buffer_list_agree (info : buffer_info) :
  buffer_accepted 6 info = true ->
  hd 0%Z (strides info) = sizeof_Scalar ->
  Dipole_init_buffer info = Dipole_init_list (map h_float (buffer_items info)).
Proof.
  intros Hacc Hstride.
  generalize (Dipole_init_buffer_outcome info). rewrite Hacc. intros ->.
  unfold buffer_accepted in Hacc.
  apply andb_prop in Hacc. destruct Hacc as [_ Hshape].
  apply Z.eqb_eq in Hshape.
  unfold buffer_items. rewrite Hshape, Hstride. reflexivity.
Qed.

(** X23. The two-buffer constructor succeeds exactly when both buffers
    pass the three checks (format, one dimension, three entries); it then
    reads three adjacent cells of each, and otherwise throws a
    [Dune::Exception]. *)
Theorem Dipole_init_buffers_outcome (position_buffer moment_buffer : buffer_info) :
  if buffer_accepted 3 position_buffer && buffer_accepted 3 moment_buffer
  then Dipole_init_buffers position_buffer moment_buffer
       = Ok (mkDipole (mkFV (data_at position_buffer 0)
                            (data_at position_buffer 1)
                            (data_at position_buffer 2))
                      (mkFV (data_at moment_buffer 0)
                            (data_at moment_buffer 1)
                            (data_at moment_buffer 2)))
  else exists what,
      Dipole_init_buffers position_buffer moment_buffer
      = Throw (Dune_Exception what).
Proof.
  unfold buffer_accepted, Dipole_init_buffers.
  change (Z.of_nat dim) with 3%Z.
  destruct (String.eqb (format position_buffer) format_Scalar),
           (String.eqb (format moment_buffer) format_Scalar),
           (ndim position_buffer =? 1)%Z, (ndim moment_buffer =? 1)%Z,
           (shape0 position_buffer =? 3)%Z, (shape0 moment_buffer =? 3)%Z;
    cbn [negb andb orb]; first [reflexivity | eexists; reflexivity].
Qed.

End BindingFurther.

(** ** Instances of the properties that have a precondition *)

Lemma Coordinate_setitem_getitem_witness :
  Coordinate_setitem false (vec 1 2 3) 1 (dbl 9) = Ok (vec 1 9 3)
  /\ Coordinate_getitem false (vec 1 9 3) 1 = Ok (dbl 9)
  /\ (forall j, j <> 1%nat ->
        Coordinate_getitem false (vec 1 9 3) j
        = Coordinate_getitem false (vec 1 2 3) j).
Proof.
  split; [reflexivity |].
  apply Coordinate_setitem_getitem. reflexivity.
Defined.

Lemma Coordinate_idiv_zero_witness :
  is_zero (dbl 0) = true
  /\ exists v, Coordinate_idiv_scalar (vec 1 2 3) (dbl 0) = Ok v
               /\ all_non_finite v = true.
Proof.
  split; [reflexivity |].
  apply Coordinate_idiv_zero. reflexivity.
Defined.

Lemma Coordinate_init_buffer_adjacent_witness :
  buffer_accepted 3 (Coordinate_buffer (vec 1 2 3)) = true
  /\ hd 0%Z (strides (Coordinate_buffer (vec 1 2 3))) = sizeof_Scalar
  /\ exists v, Coordinate_init_buffer (Coordinate_buffer (vec 1 2 3)) = Ok v
               /\ buffer_items (Coordinate_buffer (vec 1 2 3))
                  = [fv0 v; fv1 v; fv2 v].
Proof.
  split; [reflexivity |]. split; [reflexivity |].
  apply Coordinate_init_buffer_adjacent; reflexivity.
Defined.

Lemma Dipole_init_lists_agree_witness :
  List.length (floats (vec 0 0 1)) = 3%nat
  /\ List.length (floats (vec 1 0 0)) = 3%nat
  /\ Dipole_init_list (floats (vec 0 0 1) ++ floats (vec 1 0 0))%list
     = Dipole_init_lists (floats (vec 0 0 1)) (floats (vec 1 0 0)).
Proof.
  split; [reflexivity |]. split; [reflexivity |].
  apply Dipole_init_lists_agree; reflexivity.
Defined.

Lemma Dipole_init_buffer_list_agree_witness :
  buffer_accepted 6 contiguous_buffer = true
  /\ hd 0%Z (strides contiguous_buffer) = sizeof_Scalar
  /\ Dipole_init_buffer contiguous_buffer
     = Dipole_init_list (map h_float (buffer_items contiguous_buffer)).
Proof.
  split; [reflexivity |]. split; [reflexivity |].
  apply Dipole_init_buffer_list_agree; reflexivity.
Defined.
